(** * The scoring pipeline of [api/registry/tasks.py]

    A shallow embedding of the Celery task [score_passport] and of the
    helpers it calls: [load_passport_record] (the claim),
    [remove_existing_stamps_from_db], [load_passport_data],
    [process_deduplication], [validate_and_save_stamps] and
    [calculate_score].

    The Django ORM is modelled by explicit tables inside a [World]; every
    ORM call is one atomic transformation of the world (autocommit, no
    outer transaction).  Python exceptions are values of type [exn] (the
    subclasses of [Exception]; what is not one, such as KeyboardInterrupt,
    is outside the model); a computation is a function from the world to an
    outcome and the world it leaves behind, so that whatever was written
    before an exception was raised stays written.  The collaborators that
    live outside the file ([get_passport], [get_did],
    [validate_credential], [verify_issuer], [fifo], [lifo], the community's
    scorer, [datetime.strptime] and the clock) are the fields of a record
    [Collaborators].  The analytics tasks at the head of the file take no
    part in the pipeline and are left out. *)

From Stdlib Require Import ZArith String Ascii List Bool Lia.
From stdpp Require Import base option list gmap strings pretty.
Import ListNotations.

Local Open Scope string_scope.
Local Open Scope list_scope.
Local Set Warnings "-register-all".

(** ** Python values *)

(** The passport data handed around by the pipeline is deserialised JSON:
    dicts, lists, strings, integers, booleans and null.  A dict is an
    association list; the first binding of a key is the one a subscript
    finds. *)
Inductive json :=
| JNull
| JBool (b : bool)
| JNum (n : Z)
| JStr (s : string)
| JList (items : list json)
| JDict (fields : list (string * json)).

Fixpoint json_eqb (a b : json) {struct a} : bool :=
  match a, b with
  | JNull, JNull => true
  | JBool x, JBool y => Bool.eqb x y
  | JNum x, JNum y => Z.eqb x y
  | JStr x, JStr y => String.eqb x y
  | JList x, JList y =>
      (fix go (x y : list json) {struct x} : bool :=
         match x, y with
         | [], [] => true
         | a :: x', b :: y' => json_eqb a b && go x' y'
         | _, _ => false
         end) x y
  | JDict x, JDict y =>
      (fix go (x y : list (string * json)) {struct x} : bool :=
         match x, y with
         | [], [] => true
         | (k, a) :: x', (k', b) :: y' =>
             String.eqb k k' && json_eqb a b && go x' y'
         | _, _ => false
         end) x y
  | _, _ => false
  end.

(** The exception classes the pipeline can tell apart.  [APIException] is
    ninja_extra's class (with its subclasses) and carries [e.detail]; every
    other [Exception] carries its [str(e)]. *)
Inductive exn_class :=
| ValueError
| KeyError
| TypeError
| IndexError
| DoesNotExist
| MultipleObjectsReturned
| IntegrityError
| OtherException.

Inductive exn :=
| APIException (detail : string)
| PyException (cls : exn_class) (str : string).

Inductive Outcome (A : Type) :=
| Ok (a : A)
| Raise (e : exn).
Arguments Ok {A} a.
Arguments Raise {A} e.

#[global] Instance Outcome_ret : MRet Outcome := fun A a => Ok a.

#[global] Instance Outcome_bind : MBind Outcome := fun A B k o =>
  match o with
  | Ok a => k a
  | Raise e => Raise e
  end.

(** [try: body except C: handler] for the classes [C] that [catches]
    accepts. *)
Definition try_except {A} (body : Outcome A) (catches : exn -> bool) (handler : exn -> Outcome A)
  : Outcome A :=
  match body with
  | Raise e => if catches e then handler e else Raise e
  | r => r
  end.

Definition is_ValueError (e : exn) : bool :=
  match e with
  | PyException ValueError _ => true
  | _ => false
  end.

(** [o[k]] for a string key [k]. *)
Fixpoint dict_get (k : string) (fields : list (string * json)) : option json :=
  match fields with
  | [] => None
  | (k', v) :: rest => if String.eqb k k' then Some v else dict_get k rest
  end.

(** [type(o).__name__] *)
Definition py_type_name (o : json) : string :=
  match o with
  | JNull => "NoneType"
  | JBool _ => "bool"
  | JNum _ => "int"
  | JStr _ => "str"
  | JList _ => "list"
  | JDict _ => "dict"
  end.

Definition quoted (s : string) : string :=
  String.append "'" (String.append s "'").

Definition py_getitem (o : json) (k : string) : Outcome json :=
  match o with
  | JDict fields =>
      match dict_get k fields with
      | Some v => Ok v
      | None => Raise (PyException KeyError (quoted k))
      end
  | JList _ => Raise (PyException TypeError "list indices must be integers or slices, not str")
  | JStr _ => Raise (PyException TypeError "string indices must be integers, not 'str'")
  | _ =>
      Raise (PyException TypeError
               (String.append (quoted (py_type_name o)) " object is not subscriptable"))
  end.

(** [not o] is false exactly on the truthy values. *)
Definition py_truthy (o : json) : bool :=
  match o with
  | JNull => false
  | JBool b => b
  | JNum n => negb (Z.eqb n 0)
  | JStr s => negb (String.eqb s "")
  | JList items => match items with [] => false | _ => true end
  | JDict fields => match fields with [] => false | _ => true end
  end.

Fixpoint chars (s : string) : list json :=
  match s with
  | EmptyString => []
  | String c rest => JStr (String c EmptyString) :: chars rest
  end.

(** [for x in o]: the items of a list, the keys of a dict, the characters
    of a string; anything else is not iterable. *)
Definition py_iter (o : json) : Outcome (list json) :=
  match o with
  | JList items => Ok items
  | JDict fields => Ok (map (fun kv => JStr (fst kv)) fields)
  | JStr s => Ok (chars s)
  | _ =>
      Raise (PyException TypeError
               (String.append (quoted (py_type_name o)) " object is not iterable"))
  end.

(** [str.lower()] on the ASCII letters (addresses are hexadecimal). *)
Definition ascii_lower (c : ascii) : ascii :=
  let n := nat_of_ascii c in
  if (65 <=? n)%nat && (n <=? 90)%nat then ascii_of_nat (n + 32) else c.

Fixpoint lower (s : string) : string :=
  match s with
  | EmptyString => EmptyString
  | String c rest => String (ascii_lower c) (lower rest)
  end.

(** ** The tables of [registry.models] and [account.models] *)

Module Passport.
Record t := mk {
  pk : Z;
  address : string;
  community_id : Z;
  requires_calculation : option bool
}.
End Passport.

Module Stamp.
Record t := mk {
  hash : json;
  passport_id : Z;
  provider : json;
  credential : json
}.
End Stamp.

Module Score.
Inductive Status := PROCESSING | DONE | ERROR.
Record t := mk {
  score : option Z;
  status : Status;
  last_score_timestamp : option Z;
  evidence : option json;
  error : option string
}.
End Score.

Module Community.
Record t := mk {
  pk : Z;
  rule : string
}.
End Community.

Module Log.
Inductive level := debug | info | error.
End Log.

(** The persisted state, the number of clock reads made so far and the log.
    Passport and Stamp rows are kept as lists of rows, so that the
    uniqueness of their keys is a property of the operations and not of
    the type.

    Modelled from the spec: the models of [registry.models] are not part of
    the file; the Score table is [score(passport_id[unique], ...)], one row
    at most per passport, hence a finite map from the passport's key. *)
Record World := mkWorld {
  passports : list Passport.t;
  next_passport_pk : Z;
  stamps : list Stamp.t;
  scores : gmap Z Score.t;
  communities : gmap Z Community.t;
  clock_reads : nat;
  log : list (Log.level * string)
}.

Definition set_passports (ps : list Passport.t) (pk : Z) (w : World) : World :=
  mkWorld ps pk (stamps w) (scores w) (communities w) (clock_reads w) (log w).

Definition set_stamps (ss : list Stamp.t) (w : World) : World :=
  mkWorld (passports w) (next_passport_pk w) ss (scores w) (communities w)
          (clock_reads w) (log w).

Definition set_scores (sc : gmap Z Score.t) (w : World) : World :=
  mkWorld (passports w) (next_passport_pk w) (stamps w) sc (communities w)
          (clock_reads w) (log w).

Definition add_log (lvl : Log.level) (msg : string) (w : World) : World :=
  mkWorld (passports w) (next_passport_pk w) (stamps w) (scores w)
          (communities w) (clock_reads w) (log w ++ [(lvl, msg)]).

Definition tick (w : World) : World :=
  mkWorld (passports w) (next_passport_pk w) (stamps w) (scores w)
          (communities w) (S (clock_reads w)) (log w).

(** ** Computations: state and exceptions *)

Definition M (A : Type) : Type := World -> Outcome A * World.

#[global] Instance M_ret : MRet M := fun A a w => (Ok a, w).

#[global] Instance M_bind : MBind M := fun A B k m w =>
  match m w with
  | (Ok a, w') => k a w'
  | (Raise e, w') => (Raise e, w')
  end.

Definition raise {A} (e : exn) : M A := fun w => (Raise e, w).
Definition lift {A} (o : Outcome A) : M A := fun w => (o, w).
Definition gets {A} (f : World -> A) : M A := fun w => (Ok (f w), w).
Definition modify (f : World -> World) : M unit := fun w => (Ok tt, f w).

Definition log_debug (msg : string) : M unit := modify (add_log Log.debug msg).
Definition log_info (msg : string) : M unit := modify (add_log Log.info msg).
Definition log_error (msg : string) : M unit := modify (add_log Log.error msg).

(** ** The ORM calls the pipeline makes *)

(** [filter(address=address, community_id=community_id)] *)
Definition passport_matches (address : string) (community_id : Z) (p : Passport.t) : bool :=
  String.eqb (Passport.address p) address && Z.eqb (Passport.community_id p) community_id.

(** [exclude(requires_calculation=False)]: true and unset both stay. *)
Definition not_false (p : Passport.t) : bool :=
  match Passport.requires_calculation p with
  | Some false => false
  | _ => true
  end.

Definition claimable (address : string) (community_id : Z) (p : Passport.t) : bool :=
  passport_matches address community_id p && not_false p.

Definition mark_calculated (p : Passport.t) : Passport.t :=
  Passport.mk (Passport.pk p) (Passport.address p) (Passport.community_id p) (Some false).

(** [Passport.objects.filter(...).exclude(requires_calculation=False)
    .update(requires_calculation=False)]: one UPDATE statement, which
    returns the number of rows it matched. *)
Definition Passport_objects_claim (address : string) (community_id : Z) : M nat :=
  fun w =>
    (Ok (length (List.filter (claimable address community_id) (passports w))),
     set_passports
       (map (fun p => if claimable address community_id p then mark_calculated p else p)
            (passports w))
       (next_passport_pk w) w).

(** The text of Django's MultipleObjectsReturned for [found] rows. *)
Definition more_than_one (model : string) (found : nat) : string :=
  String.append "get() returned more than one "
    (String.append model
       (String.append " -- it returned "
          (String.append (if (found <? 21)%nat then pretty found else "more than 20") "!"))).

(** [Passport.objects.get(address=..., community_id=...)] *)
Definition Passport_objects_get (address : string) (community_id : Z) : M Passport.t :=
  fun w =>
    match List.filter (passport_matches address community_id) (passports w) with
    | [] => (Raise (PyException DoesNotExist "Passport matching query does not exist."), w)
    | [p] => (Ok p, w)
    | found =>
        (Raise (PyException MultipleObjectsReturned (more_than_one "Passport" (length found))), w)
    end.

(** [Passport.objects.filter(address=..., community_id=...).exists()] *)
Definition Passport_objects_exists (address : string) (community_id : Z) : M bool :=
  gets (fun w => existsb (passport_matches address community_id) (passports w)).

(** Modelled from the spec: the Passport model is not part of the file; its
    [requires_calculation] is tri-state and a newly created passport starts
    in the needs-work state, here unset. *)
Definition Passport_requires_calculation_default : option bool := None.

(** [Passport.objects.update_or_create(address=..., community_id=...)]
    with no defaults: the row found is saved back as it is, a missing row is
    inserted under the next primary key.  The community of a passport is a
    foreign key: the insert of a row for a community that has no row fails
    with the database's IntegrityError and leaves no row behind. *)
Definition Passport_objects_update_or_create (address : string) (community_id : Z) : M Passport.t :=
  fun w =>
    match List.filter (passport_matches address community_id) (passports w) with
    | [] =>
        match communities w !! community_id with
        | Some _ =>
            let p := Passport.mk (next_passport_pk w) address community_id
                                 Passport_requires_calculation_default in
            (Ok p, set_passports (passports w ++ [p]) (next_passport_pk w + 1) w)
        | None => (Raise (PyException IntegrityError "FOREIGN KEY constraint failed"), w)
        end
    | [p] => (Ok p, w)
    | found =>
        (Raise (PyException MultipleObjectsReturned (more_than_one "Passport" (length found))), w)
    end.

(** [passport.community]: the row the foreign key points to. *)
Definition Community_objects_get (pk : Z) : M Community.t :=
  fun w =>
    match communities w !! pk with
    | Some c => (Ok c, w)
    | None => (Raise (PyException DoesNotExist "Community matching query does not exist."), w)
    end.

Definition stamp_matches (hash : json) (passport_id : Z) (s : Stamp.t) : bool :=
  json_eqb (Stamp.hash s) hash && Z.eqb (Stamp.passport_id s) passport_id.

(** [Stamp.objects.filter(passport=passport).delete()] *)
Definition Stamp_objects_delete (passport_id : Z) : M unit :=
  modify (fun w =>
    set_stamps (List.filter (fun s => negb (Z.eqb (Stamp.passport_id s) passport_id)) (stamps w)) w).

(** [Stamp.objects.update_or_create(hash=..., passport=...,
    defaults={provider, credential})] *)
Definition Stamp_objects_update_or_create
    (hash : json) (passport_id : Z) (provider credential : json) : M unit :=
  fun w =>
    match List.filter (stamp_matches hash passport_id) (stamps w) with
    | [] =>
        (Ok tt, set_stamps (stamps w ++ [Stamp.mk hash passport_id provider credential]) w)
    | [_] =>
        (Ok tt,
         set_stamps
           (map (fun s =>
                   if stamp_matches hash passport_id s
                   then Stamp.mk (Stamp.hash s) (Stamp.passport_id s) provider credential
                   else s)
                (stamps w))
           w)
    | found =>
        (Raise (PyException MultipleObjectsReturned (more_than_one "Stamp" (length found))), w)
    end.

(** Modelled from the spec: the Score model is not part of the file; every
    column but the status is nullable and a fresh row starts with nulls.
    Each call below sets the status, so the status of the blank row is never
    seen. *)
Definition Score_blank : Score.t :=
  Score.mk None Score.PROCESSING None None None.

(** [Score.objects.update_or_create(passport_id=..., defaults=...)]: the
    defaults are applied to the row found, or to a fresh one. *)
Definition Score_objects_update_or_create (passport_id : Z) (defaults : Score.t -> Score.t) : M unit :=
  modify (fun w =>
    set_scores (<[passport_id := defaults (default Score_blank (scores w !! passport_id))]> (scores w)) w).

(** [dict(score=None, status=ERROR, last_score_timestamp=None,
    evidence=None, error=...)] *)
Definition error_defaults (msg : string) (_ : Score.t) : Score.t :=
  Score.mk None Score.ERROR None None (Some msg).

(** [dict(score=None, status=PROCESSING)] *)
Definition processing_defaults (row : Score.t) : Score.t :=
  Score.mk None Score.PROCESSING (Score.last_score_timestamp row)
           (Score.evidence row) (Score.error row).

(** [dict(score=..., status=DONE, last_score_timestamp=..., evidence=...,
    error=None)] *)
Definition done_defaults (score : Z) (now : Z) (evidence : option json) (_ : Score.t) : Score.t :=
  Score.mk (Some score) Score.DONE (Some now) evidence None.

(** ** Collaborators *)

(** What [scorer.compute_score] returns per passport: the score and its
    evidence entries (already as dicts; an absent list is the empty one). *)
Record ScoreData := mkScoreData {
  sd_score : Z;
  sd_evidence : list json
}.

Record Scorer := mkScorer {
  compute_score : World -> list Z -> Outcome (list ScoreData)
}.

Definition dedup_method : Type :=
  Community.t -> json -> string -> M (json * list Passport.t).

Record Collaborators := mkCollaborators {
  get_passport : string -> Outcome json;
  get_did : string -> Outcome string;
  validate_credential : string -> json -> Outcome (list string);
  verify_issuer : json -> Outcome bool;
  (** [datetime.strptime(date_string, format)]: the instant, or the text
      of the ValueError *)
  strptime : string -> string -> Z + string;
  (** the value of the n-th read of [datetime.now()] *)
  datetime_now : nat -> Z;
  (** the value of the n-th read of [datetime.now(timezone.utc)] *)
  utc_now : nat -> Z;
  fifo : dedup_method;
  lifo : dedup_method;
  get_scorer : Community.t -> Outcome Scorer;
  (** [registry.exceptions.NoPassportException()] *)
  NoPassportException : exn
}.

(** Modelled from the spec: [account.deduplication.Rules] is not part of the
    file; the rule of a community is one of FIFO and LIFO. *)
Definition Rules_FIFO : string := "FIFO".
Definition Rules_LIFO : string := "LIFO".

Section Pipeline.

Variable ext : Collaborators.

Definition get_utc_time : M Z :=
  fun w => (Ok (utc_now ext (clock_reads w)), tick w).

Definition datetime_now_read : M Z :=
  fun w => (Ok (datetime_now ext (clock_reads w)), tick w).

(** [datetime.strptime(v, format)] on a Python value. *)
Definition datetime_strptime (v : json) (format : string) : Outcome Z :=
  match v with
  | JStr s =>
      match strptime ext s format with
      | inl t => Ok t
      | inr text => Raise (PyException ValueError text)
      end
  | _ =>
      Raise (PyException TypeError
               (String.append "strptime() argument 1 must be str, not " (py_type_name v)))
  end.

Definition load_passport_data (address : string) : M json :=
  passport_data ← lift (get_passport ext address);
  if negb (py_truthy passport_data) then raise (NoPassportException ext)
  else mret passport_data.

Definition load_passport_record (community_id : Z) (address : string) : M (option Passport.t) :=
  num_passports_updated ← Passport_objects_claim (lower address) community_id;
  if (num_passports_updated =? 1)%nat then
    db_passport ← Passport_objects_get (lower address) community_id;
    mret (Some db_passport)
  else
    found ← Passport_objects_exists (lower address) community_id;
    if negb found then
      db_passport ← Passport_objects_update_or_create (lower address) community_id;
      mret (Some db_passport)
    else mret None.

Definition remove_existing_stamps_from_db (passport : Passport.t) : M unit :=
  Stamp_objects_delete (Passport.pk passport).

Definition first_evidence (sd : ScoreData) : option json :=
  match sd_evidence sd with
  | [] => None
  | e :: _ => Some e
  end.

Definition calculate_score (passport : Passport.t) (community_id : Z) : M unit :=
  log_debug "Scoring";;
  user_community ← Community_objects_get community_id;
  scorer ← lift (get_scorer ext user_community);
  scores ← (fun w => (compute_score scorer w [Passport.pk passport], w));
  log_info "Scores for address '%s': %s";;
  scoreData ← lift (match scores with
                    | [] => Raise (PyException IndexError "list index out of range")
                    | sd :: _ => Ok sd
                    end);
  now ← get_utc_time;
  Score_objects_update_or_create (Passport.pk passport)
    (done_defaults (sd_score scoreData) now (first_evidence scoreData)).

(** [rule_map.get(rule)]; the FIFO entry is the later one of the dict. *)
Definition rule_map (rule : string) : option dedup_method :=
  if String.eqb rule Rules_FIFO then Some (fifo ext)
  else if String.eqb rule Rules_LIFO then Some (lifo ext)
  else None.

(** The body of [for passport in affected_passports:]. *)
Fixpoint rescore_affected (affected_passports : list Passport.t) : M unit :=
  match affected_passports with
  | [] => mret tt
  | passport :: rest =>
      log_debug "FIFO scoring selected, rescoring passport='%s'";;
      Score_objects_update_or_create (Passport.pk passport) processing_defaults;;
      calculate_score passport (Passport.community_id passport);;
      rescore_affected rest
  end.

Definition process_deduplication (passport : Passport.t) (passport_data : json) : M json :=
  community ← Community_objects_get (Passport.community_id passport);
  let method := rule_map (Community.rule community) in
  log_debug "Processing deduplication for address='%s' and method='%s'";;
  match method with
  | None => raise (PyException OtherException "Invalid rule")
  | Some method =>
      r ← method community passport_data (Passport.address passport);
      let deduplicated_passport := fst r in
      let affected_passports := snd r in
      log_debug "Processing deduplication found deduplicated_passport='%s' and affected_passports='%s'";;
      (if String.eqb (Community.rule community) Rules_FIFO
       then rescore_affected affected_passports
       else mret tt);;
      mret deduplicated_passport
  end.

(** [datetime.strptime(stamp["credential"]["expirationDate"], format)] *)
Definition parse_expiration (stamp : json) (format : string) : Outcome Z :=
  credential ← py_getitem stamp "credential";
  expirationDate ← py_getitem credential "expirationDate";
  datetime_strptime expirationDate format.

(** The [try] ... [except ValueError] around the two formats. *)
Definition stamp_expiration (stamp : json) : Outcome Z :=
  try_except (parse_expiration stamp "%Y-%m-%dT%H:%M:%S.%fZ") is_ValueError
             (fun _ => parse_expiration stamp "%Y-%m-%dT%H:%M:%SZ").

(** One round of [for stamp in deduped_passport_data["stamps"]:]. *)
Definition validate_stamp (passport : Passport.t) (did : string) (stamp : json) : M unit :=
  credential ← lift (py_getitem stamp "credential");
  stamp_return_errors ← lift (validate_credential ext did credential);
  stamp_expiration_date ← lift (stamp_expiration stamp);
  is_issuer_verified ← lift (verify_issuer ext stamp);
  now ← datetime_now_read;
  let stamp_is_expired := (stamp_expiration_date <? now)%Z in
  if (length stamp_return_errors =? 0)%nat && negb stamp_is_expired && is_issuer_verified
  then
    credential ← lift (py_getitem stamp "credential");
    credentialSubject ← lift (py_getitem credential "credentialSubject");
    hash ← lift (py_getitem credentialSubject "hash");
    provider ← lift (py_getitem stamp "provider");
    credential ← lift (py_getitem stamp "credential");
    Stamp_objects_update_or_create hash (Passport.pk passport) provider credential
  else
    log_info "Stamp not created. Stamp=%s\nReason: errors=%s stamp_is_expired=%s is_issuer_verified=%s".

Fixpoint validate_stamps (passport : Passport.t) (did : string) (todo : list json) : M unit :=
  match todo with
  | [] => mret tt
  | stamp :: rest =>
      validate_stamp passport did stamp;;
      validate_stamps passport did rest
  end.

Definition validate_and_save_stamps (passport : Passport.t) (passport_data : json) : M unit :=
  log_debug "getting stamp data ";;
  log_debug "processing deduplication";;
  deduped_passport_data ← process_deduplication passport passport_data;
  log_debug "validating stamps";;
  did ← lift (get_did ext (Passport.address passport));
  stamps_field ← lift (py_getitem deduped_passport_data "stamps");
  todo ← lift (py_iter stamps_field);
  validate_stamps passport did todo.

(** What [e.detail], respectively [str(e)], hands to the ERROR row. *)
Definition error_text (e : exn) : string :=
  match e with
  | APIException detail => detail
  | PyException _ str => str
  end.

(** The two [except] clauses of [score_passport]; [passport] is the local
    variable, still [None] when the claim did not return. *)
Definition handle_exception (passport : option Passport.t) (e : exn) : M unit :=
  match e with
  | APIException _ =>
      log_error "APIException when handling passport submission. community_id=%s, address='%s'"
  | PyException _ _ =>
      log_error "Error when handling passport submission. community_id=%s, address='%s'"
  end;;
  match passport with
  | Some passport =>
      Score_objects_update_or_create (Passport.pk passport) (error_defaults (error_text e))
  | None => mret tt
  end.

(** The steps of the [try] block that follow a successful claim. *)
Definition score_claimed (passport : Passport.t) (community_id : Z) (address : string) : M unit :=
  remove_existing_stamps_from_db passport;;
  passport_data ← load_passport_data address;
  validate_and_save_stamps passport passport_data;;
  calculate_score passport community_id.

(** The world once the request has been logged. *)
Definition request_logged (w : World) : World :=
  add_log Log.info "score_passport request for community_id=%s, address='%s'" w.

Definition score_passport (community_id : Z) (address : string) : M unit :=
  log_info "score_passport request for community_id=%s, address='%s'";;
  ((fun w =>
      match load_passport_record community_id address w with
      | (Raise e, w1) => handle_exception None e w1
      | (Ok None, w1) =>
          log_info "Passport no passport found for address='%s', community_id='%s' that has requires_calculation=True or None" w1
      | (Ok (Some passport), w1) =>
          match score_claimed passport community_id address w1 with
          | (Raise e, w2) => handle_exception (Some passport) e w2
          | ok => ok
          end
      end) : M unit).

(** The two Celery tasks. *)
Definition score_passport_passport (community_id : Z) (address : string) : M unit :=
  score_passport community_id address.

Definition score_registry_passport (community_id : Z) (address : string) : M unit :=
  score_passport community_id address.

End Pipeline.

(** ** Concurrent callers of [load_passport_record]

    Workers share nothing but the database.  Each ORM call of
    [load_passport_record] is one atomic step (the UPDATE is a single
    statement); between two steps of one call any other call may take
    steps of its own. *)

(** Where a call stands: before its UPDATE, before its [get], before its
    [exists], before its [update_or_create], or returned. *)
Inductive position :=
| AtClaim
| AtGet
| AtExists
| AtCreate
| Returned (r : Outcome (option Passport.t)).

Record call := mkCall {
  call_community_id : Z;
  call_address : string;
  call_at : position
}.

Definition move (c : call) (at' : position) : call :=
  mkCall (call_community_id c) (call_address c) at'.

(** The next ORM call of [load_passport_record community_id address]. *)
Definition call_step (community_id : Z) (address : string) (at_ : position) (w : World)
  : option (position * World) :=
  match at_ with
  | AtClaim =>
      match Passport_objects_claim (lower address) community_id w with
      | (Ok num_passports_updated, w') =>
          Some (if (num_passports_updated =? 1)%nat then AtGet else AtExists, w')
      | (Raise e, w') => Some (Returned (Raise e), w')
      end
  | AtGet =>
      match Passport_objects_get (lower address) community_id w with
      | (Ok db_passport, w') => Some (Returned (Ok (Some db_passport)), w')
      | (Raise e, w') => Some (Returned (Raise e), w')
      end
  | AtExists =>
      match Passport_objects_exists (lower address) community_id w with
      | (Ok found, w') => Some (if negb found then AtCreate else Returned (Ok None), w')
      | (Raise e, w') => Some (Returned (Raise e), w')
      end
  | AtCreate =>
      match Passport_objects_update_or_create (lower address) community_id w with
      | (Ok db_passport, w') => Some (Returned (Ok (Some db_passport)), w')
      | (Raise e, w') => Some (Returned (Raise e), w')
      end
  | Returned _ => None
  end.

(** One worker takes its next step. *)
Inductive workers_step : list call * World -> list call * World -> Prop :=
| workers_step_at (i : nat) (c : call) (at' : position) (cs : list call) (w w' : World) :
    cs !! i = Some c ->
    call_step (call_community_id c) (call_address c) (call_at c) w = Some (at', w') ->
    workers_step (cs, w) (<[i := move c at']> cs, w').

(** A call alone: its steps one after the other. *)
Fixpoint run_call (fuel : nat) (community_id : Z) (address : string) (at_ : position) (w : World)
  : position * World :=
  match fuel with
  | O => (at_, w)
  | S fuel' =>
      match call_step community_id address at_ w with
      | Some (at', w') => run_call fuel' community_id address at' w'
      | None => (at_, w)
      end
  end.

Definition returned_passport (c : call) : bool :=
  match call_at c with
  | Returned (Ok (Some _)) => true
  | _ => false
  end.

Definition returned_none (c : call) : bool :=
  match call_at c with
  | Returned (Ok None) => true
  | _ => false
  end.

Definition has_returned (c : call) : bool :=
  match call_at c with
  | Returned _ => true
  | _ => false
  end.

(** The calls that own the passport: past a successful UPDATE. *)
Definition owns (c : call) : bool :=
  match call_at c with
  | AtGet => true
  | Returned (Ok (Some _)) => true
  | _ => false
  end.

(** The ORM calls a call may still make. *)
Definition steps_left (c : call) : nat :=
  match call_at c with
  | AtClaim => 3
  | AtExists => 2
  | AtGet => 1
  | AtCreate => 1
  | Returned _ => 0
  end.

Definition total_steps_left (cs : list call) : nat :=
  sum_list_with steps_left cs.

(** ** Predicates the properties are stated with *)

Section ClaimInvariant.

Variables (community_id : Z) (key : string).

(** A call for the key [(community_id, key)]. *)
Definition same_key (c : call) : Prop :=
  call_community_id c = community_id /\ lower (call_address c) = key.

(** What holds of every state the workers can reach when the key has one
    row: the row needs work or one call owns it, never both; while it needs
    work nobody has moved; nobody creates a row and nobody raises. *)
Definition claim_inv (s : list call * World) : Prop :=
  (exists p,
      List.filter (passport_matches key community_id) (passports (snd s)) = [p]
      /\ (Nat.b2n (not_false p) + length (List.filter owns (fst s)) = 1)%nat
      /\ (not_false p = true -> Forall (fun c => call_at c = AtClaim) (fst s)))
  /\ Forall (fun c => same_key c
                      /\ call_at c <> AtCreate
                      /\ forall e, call_at c <> Returned (Raise e)) (fst s).

End ClaimInvariant.

(** ** Sample inputs *)

(** Two workers race for the passport of community 7 at address 0xab,
    which needs calculation. *)
Definition race_world : World :=
  mkWorld [Passport.mk 1 "0xab" 7 (Some true)] 2 [] ∅ ∅ 0 [].

Definition race_calls : list call :=
  [mkCall 7 "0xAB" AtClaim; mkCall 7 "0xab" AtClaim].

Definition race_world_end : World :=
  mkWorld [Passport.mk 1 "0xab" 7 (Some false)] 2 [] ∅ ∅ 0 [].

Definition race_calls_end : list call :=
  [mkCall 7 "0xAB" (Returned (Ok None));
   mkCall 7 "0xab" (Returned (Ok (Some (Passport.mk 1 "0xab" 7 (Some false)))))].

(** No passport at all, one community that deduplicates LIFO. *)
Definition empty_world : World :=
  mkWorld [] 1 [] ∅ {[ 7%Z := Community.mk 7 "LIFO" ]} 0 [].

(** The passport of 0xab in community 7 has been scored: one stamp, a DONE
    score, nothing left to calculate. *)
Definition done_world : World :=
  mkWorld [Passport.mk 1 "0xab" 7 (Some false)] 2
          [Stamp.mk (JStr "h1") 1 (JStr "Google") (JDict [])]
          {[ 1%Z := Score.mk (Some 12%Z) Score.DONE (Some 500%Z) None None ]}
          {[ 7%Z := Community.mk 7 "LIFO" ]} 0 [].

(** A stamp as the passport reader hands it over. *)
Definition sample_stamp (provider hash expirationDate : string) : json :=
  JDict [("provider", JStr provider);
         ("credential",
          JDict [("expirationDate", JStr expirationDate);
                 ("credentialSubject", JDict [("hash", JStr hash)])])].

(** A parser that knows two instants, both written without a fraction. *)
Definition does_not_match (date_string format : string) : string :=
  String.append "time data "
    (String.append (quoted date_string)
       (String.append " does not match format " (quoted format))).

Definition sample_strptime (date_string format : string) : Z + string :=
  if String.eqb format "%Y-%m-%dT%H:%M:%SZ" then
    if String.eqb date_string "2030-01-01T00:00:00Z" then inl 2000%Z
    else if String.eqb date_string "2023-01-01T00:00:00Z" then inl 1000%Z
    else inr (does_not_match date_string format)
  else inr (does_not_match date_string format).

Definition sample_dedup (affected : list Passport.t) : dedup_method :=
  fun _ passport_data _ w => (Ok (passport_data, affected), w).

(** A scorer that gives 5 to every passport but fails on those of
    [unscored]. *)
Definition sample_scorer (unscored : list Z) : Scorer :=
  mkScorer (fun _ pks =>
    if existsb (fun pk => existsb (Z.eqb pk) unscored) pks
    then Raise (PyException OtherException "scorer unavailable")
    else Ok (map (fun _ => mkScoreData 5 []) pks)).

(** Collaborators for the sample runs: the reader returns [passport_data],
    every credential verifies, the clock stands at 1000, FIFO reports
    [affected]. *)
Definition sample_collaborators
    (passport_data : json) (affected : list Passport.t) (unscored : list Z) : Collaborators :=
  mkCollaborators
    (fun _ => Ok passport_data)
    (fun address => Ok (String.append "did:pkh:eip155:1:" address))
    (fun _ _ => Ok [])
    (fun _ => Ok true)
    sample_strptime
    (fun _ => 1000%Z)
    (fun _ => 1000%Z)
    (sample_dedup affected)
    (sample_dedup [])
    (fun _ => Ok (sample_scorer unscored))
    (APIException "No Passport found for this address.").

(** The passport of 0xab in community 7 was scored once (a stamp, a DONE
    score) and has been marked for a new calculation; passport 2 of the same
    community holds a stamp of its own. *)
Definition needs_world : World :=
  mkWorld [Passport.mk 1 "0xab" 7 (Some true); Passport.mk 2 "0xcd" 7 (Some false)] 3
          [Stamp.mk (JStr "h1") 1 (JStr "Google") (JDict []);
           Stamp.mk (JStr "h9") 2 (JStr "Ens") (JDict [])]
          {[ 1%Z := Score.mk (Some 12%Z) Score.DONE (Some 500%Z) None None ]}
          {[ 7%Z := Community.mk 7 "LIFO" ]} 0 [].

(** The same, in a community that deduplicates FIFO. *)
Definition needs_world_fifo : World :=
  mkWorld (passports needs_world) 3 (stamps needs_world) (scores needs_world)
          {[ 7%Z := Community.mk 7 "FIFO" ]} 0 [].

(** Two rows under one key, one of them in need of calculation. *)
Definition twin_world : World :=
  mkWorld [Passport.mk 1 "0xab" 7 None; Passport.mk 2 "0xab" 7 (Some false)] 3
          [] ∅ {[ 7%Z := Community.mk 7 "LIFO" ]} 0 [].

(** The rows of a passport in the Stamp table. *)
Definition stamps_of (passport_id : Z) (w : World) : list Stamp.t :=
  List.filter (fun s => Z.eqb (Stamp.passport_id s) passport_id) (stamps w).

(** Passport data with one credential that expires in the future. *)
Definition one_stamp_data : json :=
  JDict [("stamps", JList [sample_stamp "Twitter" "h2" "2030-01-01T00:00:00Z"])].

(** Three credentials; the date of the second one is in no format the
    parser knows. *)
Definition bad_date_data : json :=
  JDict [("stamps",
          JList [sample_stamp "Twitter" "h2" "2030-01-01T00:00:00Z";
                 sample_stamp "Google" "h3" "next year";
                 sample_stamp "Ens" "h4" "2030-01-01T00:00:00Z"])].

(** No two rows of the Stamp table under one (hash, passport). *)
Definition stamp_keys_unique (rows : list Stamp.t) : Prop :=
  forall hash passport_id,
    (length (List.filter (stamp_matches hash passport_id) rows) <= 1)%nat.

(** A credential that expires at the very instant the clock shows. *)
Definition expiring_now_data : json :=
  JDict [("stamps", JList [sample_stamp "Twitter" "h2" "2023-01-01T00:00:00Z"])].

(** Two valid credentials that carry the same hash. *)
Definition same_hash_stamps : list json :=
  [sample_stamp "Twitter" "h2" "2030-01-01T00:00:00Z";
   sample_stamp "Google" "h2" "2030-01-01T00:00:00Z"].

(** The world once [process_deduplication] has logged the method it
    chose, and once it has logged what the method found. *)
Definition method_logged (w : World) : World :=
  add_log Log.debug "Processing deduplication for address='%s' and method='%s'" w.

Definition found_logged (w : World) : World :=
  add_log Log.debug
    "Processing deduplication found deduplicated_passport='%s' and affected_passports='%s'" w.

(** The Score row of a passport is DONE. *)
Definition score_done (w : World) (q : Passport.t) : Prop :=
  exists row, scores w !! Passport.pk q = Some row /\ Score.status row = Score.DONE.

(** The values [load_passport_data] takes for no data: the falsy ones. *)
Definition no_data (passport_data : json) : Prop :=
  passport_data = JNull \/ passport_data = JBool false \/ passport_data = JNum 0
  \/ passport_data = JStr "" \/ passport_data = JList [] \/ passport_data = JDict [].

(** The Score row of a run that is over: DONE with a score and its time and
    no error, or ERROR with the text of the error and nothing else. *)
Definition terminal_score (row : Score.t) : Prop :=
  (Score.status row = Score.DONE
   /\ is_Some (Score.score row) /\ is_Some (Score.last_score_timestamp row)
   /\ Score.error row = None)
  \/ (Score.status row = Score.ERROR
      /\ Score.score row = None /\ Score.last_score_timestamp row = None
      /\ Score.evidence row = None /\ is_Some (Score.error row)).

(** A community whose rule is neither FIFO nor LIFO. *)
Definition odd_rule_world : World :=
  mkWorld [Passport.mk 1 "0xab" 7 (Some true)] 2 [] ∅
          {[ 7%Z := Community.mk 7 "RANDOM" ]} 0 [].

(** The sample collaborators with the clock at 1500, after the earlier of
    the two instants the parser knows. *)
Definition late_collaborators (passport_data : json) : Collaborators :=
  mkCollaborators
    (fun _ => Ok passport_data)
    (fun address => Ok (String.append "did:pkh:eip155:1:" address))
    (fun _ _ => Ok [])
    (fun _ => Ok true)
    sample_strptime
    (fun _ => 1500%Z)
    (fun _ => 1500%Z)
    (sample_dedup [])
    (sample_dedup [])
    (fun _ => Ok (sample_scorer []))
    (APIException "No Passport found for this address.").

(** An expired credential without provider and without credentialSubject. *)
Definition bare_expired_stamp : json :=
  JDict [("credential", JDict [("expirationDate", JStr "2023-01-01T00:00:00Z")])].

(** A credential that has not expired and has no credentialSubject. *)
Definition bare_valid_stamp : json :=
  JDict [("provider", JStr "Ens");
         ("credential", JDict [("expirationDate", JStr "2030-01-01T00:00:00Z")])].

(** * Properties *)

(** ** Python values *)

Lemma json_eqb_eq (a b : json) : json_eqb a b = true <-> a = b.
Proof.
  revert a b. fix IH 1. intros a b; destruct a, b; simpl;
    try (split; [discriminate | discriminate || congruence]).
  - split; congruence.
  - destruct b, b0; simpl; split; congruence.
  - rewrite Z.eqb_eq. split; congruence.
  - rewrite String.eqb_eq. split; congruence.
  - revert items0. induction items as [|x l IHl]; intros [|y l0];
      try (split; congruence).
    rewrite andb_true_iff, (IH x y), (IHl l0).
    split; [intros [-> H]; congruence | intros H; injection H; intros; subst; auto].
  - revert fields0. induction fields as [|[k x] l IHl]; intros [|[k' y] l0];
      try (split; congruence).
    rewrite !andb_true_iff, String.eqb_eq, (IH x y), (IHl l0).
    split; [intros [[-> ->] H]; congruence | intros H; injection H; intros; subst; auto].
Qed.

Lemma json_eqb_refl (a : json) : json_eqb a a = true.
Proof. by apply json_eqb_eq. Qed.

(** ** The claim under concurrent callers *)

Section Filter.
Context {A : Type}.

Lemma filter_andb (f g : A -> bool) (l : list A) :
  List.filter (fun x => f x && g x) l = List.filter g (List.filter f l).
Proof.
  induction l as [|x l IH]; simpl; [done|].
  destruct (f x); simpl; [destruct (g x)|]; by rewrite IH.
Qed.

Lemma filter_map_stable (f : A -> bool) (h : A -> A) (l : list A) :
  (forall x, f (h x) = f x) ->
  List.filter f (map h l) = map h (List.filter f l).
Proof.
  intros Hst. induction l as [|x l IH]; simpl; [done|].
  rewrite Hst. destruct (f x); simpl; by rewrite IH.
Qed.

Lemma filter_nonempty_existsb (f : A -> bool) (l : list A) :
  List.filter f l <> [] <-> existsb f l = true.
Proof.
  induction l as [|x l IH]; simpl; [split; [done | discriminate]|].
  destruct (f x); simpl; [split; [done | discriminate] | apply IH].
Qed.

Lemma count_insert (f : A -> bool) (l : list A) (i : nat) (x y : A) :
  l !! i = Some x ->
  (length (List.filter f (<[i := y]> l)) + Nat.b2n (f x)
   = length (List.filter f l) + Nat.b2n (f y))%nat.
Proof.
  revert i. induction l as [|a l IH]; intros [|i] Hi; simpl in *; try done.
  - injection Hi as ->. destruct (f x), (f y); simpl; lia.
  - specialize (IH i Hi). destruct (f a); simpl; lia.
Qed.

End Filter.

Lemma passport_matches_mark (address : string) (community_id : Z) (p : Passport.t) :
  passport_matches address community_id
    (if claimable address community_id p then mark_calculated p else p)
  = passport_matches address community_id p.
Proof. by destruct (claimable address community_id p). Qed.

Lemma filter_length_le {A} (f g : A -> bool) (l : list A) :
  (forall x, f x = true -> g x = true) ->
  (length (List.filter f l) <= length (List.filter g l))%nat.
Proof.
  intros Hfg. induction l as [|x l IH]; simpl; [done|].
  destruct (f x) eqn:Hf; [rewrite (Hfg x Hf); simpl; lia|].
  destruct (g x); simpl; lia.
Qed.

(** A call that runs alone goes through the ORM calls of
    [load_passport_record] and returns what it returns. *)
Lemma run_call_load_passport_record (community_id : Z) (address : string) (w : World) :
  run_call 3 community_id address AtClaim w
  = (Returned (fst (load_passport_record community_id address w)),
     snd (load_passport_record community_id address w)).
Proof.
  unfold load_passport_record, mbind, M_bind, mret, M_ret. simpl.
  destruct (length _ =? 1)%nat; simpl.
  - unfold Passport_objects_get.
    destruct (List.filter _ _) as [|p [|q l]]; reflexivity.
  - destruct (existsb _ _); simpl; [reflexivity|].
    unfold Passport_objects_update_or_create. simpl.
    destruct (List.filter _ _) as [|p [|q l]]; try reflexivity.
    by destruct (communities w !! community_id).
Qed.

Section ClaimProofs.

Variables (community_id : Z) (key : string).

Lemma claim_inv_step (s s' : list call * World) :
  claim_inv community_id key s -> workers_step s s' -> claim_inv community_id key s'.
Proof.
  intros [(p & Hrow & Hsum & Hidle) Hcalls] Hstep.
  destruct Hstep as [i c at' cs w w' Hi Hcall]. simpl in *.
  pose proof (proj1 (Forall_lookup _ _) Hcalls i c Hi) as ((Hcid & Hkey) & Hnc & Hnr).
  assert (Hmatch : passport_matches key community_id p = true).
  { assert (Hin : In p (List.filter (passport_matches key community_id) (passports w)))
      by (rewrite Hrow; left; done).
    by apply filter_In in Hin as [_ ?]. }
  assert (Hom : forall a, owns (move c a) = owns (mkCall 0 "" a)) by done.
  destruct (call_at c) eqn:Hat; simpl in Hcall;
    rewrite ?Hcid, ?Hkey in Hcall; try done;
    assert (Hoc : owns c = owns (mkCall 0 "" (call_at c))) by done;
    rewrite Hat in Hoc.
  - (* the UPDATE *)
    injection Hcall as <- <-. simpl.
    unfold claimable at 1. rewrite filter_andb, Hrow. simpl.
    assert (Hrow' :
      List.filter (passport_matches key community_id)
        (map (fun p0 => if claimable key community_id p0 then mark_calculated p0 else p0)
             (passports w))
      = [if claimable key community_id p then mark_calculated p else p]).
    { rewrite filter_map_stable by (intros; apply passport_matches_mark).
      by rewrite Hrow. }
    pose proof (count_insert owns cs i c
                  (move c (if (length (if not_false p then [p] else []) =? 1)%nat
                           then AtGet else AtExists)) Hi) as Hcount.
    unfold claimable in Hrow' at 2. rewrite Hmatch in Hrow'. simpl in Hrow'.
    rewrite Hom, Hoc in Hcount.
    split.
    + eexists. split; [exact Hrow'|].
      destruct (not_false p) eqn:Hnf; simpl in *.
      * split; [lia | done].
      * rewrite Hnf. split; [simpl; lia | done].
    + apply Forall_insert; [done|]. simpl. repeat split; try done.
      * by destruct (_ =? _)%nat.
      * by destruct (_ =? _)%nat.
  - (* get *)
    unfold Passport_objects_get in Hcall. rewrite Hrow in Hcall.
    injection Hcall as <- <-.
    pose proof (count_insert owns cs i c (move c (Returned (Ok (Some p)))) Hi) as Hcount.
    rewrite Hom, Hoc in Hcount. simpl in Hcount.
    split.
    + exists p. simpl. split; [done|]. split; [lia|].
      intros Hnf. specialize (Hidle Hnf).
      pose proof (proj1 (Forall_lookup _ _) Hidle i c Hi) as Habs. congruence.
    + apply Forall_insert; [done|]. simpl. repeat split; done.
  - (* exists *)
    assert (Hex : existsb (passport_matches key community_id) (passports w) = true).
    { apply filter_nonempty_existsb. by rewrite Hrow. }
    rewrite Hex in Hcall. simpl in Hcall. injection Hcall as <- <-.
    pose proof (count_insert owns cs i c (move c (Returned (Ok None))) Hi) as Hcount.
    rewrite Hom, Hoc in Hcount. simpl in Hcount.
    split.
    + exists p. simpl. split; [done|]. split; [lia|].
      intros Hnf. specialize (Hidle Hnf).
      pose proof (proj1 (Forall_lookup _ _) Hidle i c Hi) as Habs. congruence.
    + apply Forall_insert; [done|]. simpl. repeat split; done.
Qed.

Lemma claim_inv_reachable (s s' : list call * World) :
  claim_inv community_id key s -> rtc workers_step s s' -> claim_inv community_id key s'.
Proof.
  intros Hinv Hsteps. induction Hsteps as [|s1 s2 s3 Hstep _ IH]; [done|].
  apply IH. by apply (claim_inv_step s1).
Qed.

End ClaimProofs.

(** Every call that has not returned can take its next step, and each step
    brings it closer to its return: the workers cannot run forever. *)
Lemma call_step_progress (community_id : Z) (address : string) (at_ : position) (w : World) :
  has_returned (mkCall community_id address at_) = false ->
  exists at' w', call_step community_id address at_ w = Some (at', w').
Proof.
  destruct at_; simpl; intros Hr; try done.
  - destruct (_ =? _)%nat; eauto.
  - unfold Passport_objects_get.
    destruct (List.filter _ _) as [|p [|q l]]; eauto.
  - destruct (negb _); eauto.
  - unfold Passport_objects_update_or_create.
    destruct (List.filter _ _) as [|p [|q l]]; eauto.
    destruct (communities w !! community_id); eauto.
Qed.

Lemma sum_list_with_insert {A} (f : A -> nat) (l : list A) (i : nat) (x y : A) :
  l !! i = Some x ->
  (sum_list_with f (<[i := y]> l) + f x = sum_list_with f l + f y)%nat.
Proof.
  revert i. induction l as [|a l IH]; intros [|i] Hi; simpl in *; try done.
  - injection Hi as ->. lia.
  - specialize (IH i Hi). lia.
Qed.

(** Every step of a worker uses up one of the calls left: N workers are
    done after 3 N steps at most. *)
Lemma workers_step_decreases (cs cs' : list call) (w w' : World) :
  workers_step (cs, w) (cs', w') ->
  (total_steps_left cs' < total_steps_left cs)%nat.
Proof.
  inversion 1 as [i c at' ? ? ? Hi Hcall]; subst.
  pose proof (sum_list_with_insert steps_left cs i c (move c at') Hi) as Hsum.
  assert (Hlt : (steps_left (move c at') < steps_left c)%nat); [|unfold total_steps_left; lia].
  unfold steps_left. simpl. destruct (call_at c); simpl in Hcall.
  - injection Hcall as <- _. destruct (_ =? _)%nat; lia.
  - unfold Passport_objects_get in Hcall.
    destruct (List.filter _ _) as [|p [|q l]]; injection Hcall as <- _; lia.
  - injection Hcall as <- _. destruct (negb _); lia.
  - unfold Passport_objects_update_or_create in Hcall.
    destruct (List.filter _ _) as [|p [|q l]];
      [destruct (communities w !! _)| |]; injection Hcall as <- _; lia.
  - done.
Qed.

(** C1. N workers call [load_passport_record] concurrently for one key
    whose passport row exists and has [requires_calculation] true or unset.
    In every state their interleaved ORM calls can reach, at most one call
    has returned a passport, every other call that has returned has
    returned [None] (none has raised), and once all have returned exactly
    one of them holds the passport. *)
Theorem at_most_one_claim
    (community_id : Z) (key : string) (cs cs' : list call) (w w' : World) (p : Passport.t) :
  Forall (fun c => same_key community_id key c /\ call_at c = AtClaim) cs ->
  List.filter (passport_matches key community_id) (passports w) = [p] ->
  not_false p = true ->
  rtc workers_step (cs, w) (cs', w') ->
  (length (List.filter returned_passport cs') <= 1)%nat
  /\ Forall (fun c => has_returned c = true ->
                      returned_passport c = true \/ returned_none c = true) cs'
  /\ (cs' <> [] -> Forall (fun c => has_returned c = true) cs' ->
      length (List.filter returned_passport cs') = 1%nat).
Proof.
  intros Hstart Hrow Hneeds Hreach.
  assert (Hinit : claim_inv community_id key (cs, w)).
  { split; simpl.
    - exists p. split; [done|]. rewrite Hneeds. simpl. split.
      + assert (Hnone : List.filter owns cs = []); [|by rewrite Hnone].
        clear -Hstart. induction Hstart as [|c l [_ Hat] _ IH]; simpl; [done|].
        unfold owns at 1. by rewrite Hat.
      + intros _. eapply Forall_impl; [exact Hstart|]. by intros c [_ ?].
    - eapply Forall_impl; [exact Hstart|]. intros c [Hk Hat].
      split; [exact Hk|]. rewrite Hat.
      split; [discriminate | intros e; discriminate]. }
  pose proof (claim_inv_reachable community_id key _ _ Hinit Hreach)
    as [(p' & Hrow' & Hsum & Hidle) Hcalls].
  simpl in *.
  assert (Hle : (length (List.filter returned_passport cs')
                 <= length (List.filter owns cs'))%nat).
  { apply filter_length_le. intros c. unfold returned_passport, owns.
    by destruct (call_at c) as [| | | |[[q|]|e]]. }
  split; [lia|]. split.
  - eapply Forall_impl; [exact Hcalls|]. intros c (_ & _ & Hnr).
    unfold has_returned, returned_passport, returned_none.
    destruct (call_at c) as [| | | |[[q|]|e]]; try done; auto.
    by destruct (Hnr e).
  - intros Hne Hall.
    assert (Heq : List.filter returned_passport cs' = List.filter owns cs').
    { apply filter_ext_in. intros c Hin.
      pose proof (proj1 (List.Forall_forall _ _) Hall c Hin) as Hr.
      unfold has_returned in Hr. unfold returned_passport, owns.
      by destruct (call_at c) as [| | | |[[q|]|e]]. }
    rewrite Heq. destruct (not_false p') eqn:Hnf; simpl in Hsum; [|lia].
    specialize (Hidle eq_refl). destruct cs' as [|c l]; [done|].
    inversion Hidle as [|? ? Hat _]; subst.
    inversion Hall as [|? ? Hr _]; subst.
    unfold has_returned in Hr. by rewrite Hat in Hr.
Qed.

Lemma at_most_one_claim_witness :
  (length (List.filter returned_passport race_calls_end) <= 1)%nat
  /\ Forall (fun c => has_returned c = true ->
                      returned_passport c = true \/ returned_none c = true) race_calls_end
  /\ (race_calls_end <> [] -> Forall (fun c => has_returned c = true) race_calls_end ->
      length (List.filter returned_passport race_calls_end) = 1%nat).
Proof.
  apply (at_most_one_claim 7 "0xab" race_calls race_calls_end race_world race_world_end
           (Passport.mk 1 "0xab" 7 (Some true))).
  - repeat constructor.
  - reflexivity.
  - reflexivity.
  - eapply rtc_l.
    { apply (workers_step_at 1 (mkCall 7 "0xab" AtClaim) AtGet); reflexivity. }
    eapply rtc_l.
    { apply (workers_step_at 0 (mkCall 7 "0xAB" AtClaim) AtExists); reflexivity. }
    eapply rtc_l.
    { apply (workers_step_at 0 (mkCall 7 "0xAB" AtExists) (Returned (Ok None)));
        reflexivity. }
    eapply rtc_l.
    { apply (workers_step_at 1 (mkCall 7 "0xab" AtGet)
               (Returned (Ok (Some (Passport.mk 1 "0xab" 7 (Some false))))));
        reflexivity. }
    apply rtc_refl.
Defined.

(** ** The claim, one caller *)

Lemma map_if_filter_nil {A} (f : A -> bool) (h : A -> A) (l : list A) :
  List.filter f l = [] -> map (fun x => if f x then h x else x) l = l.
Proof.
  induction l as [|x l IH]; simpl; [done|].
  destruct (f x); [done|]. intros Hnil. by rewrite IH.
Qed.

Lemma set_passports_same (w : World) :
  set_passports (passports w) (next_passport_pk w) w = w.
Proof. by destruct w. Qed.

(** An UPDATE that matches no row reports zero and changes nothing. *)
Lemma Passport_objects_claim_none (address : string) (community_id : Z) (w : World) :
  List.filter (claimable address community_id) (passports w) = [] ->
  Passport_objects_claim address community_id w = (Ok 0%nat, w).
Proof.
  intros Hnil. unfold Passport_objects_claim.
  by rewrite Hnil, (map_if_filter_nil _ _ _ Hnil), set_passports_same.
Qed.

Lemma existsb_filter_nil {A} (f : A -> bool) (l : list A) :
  List.filter f l = [] -> existsb f l = false.
Proof.
  intros Hnil. destruct (existsb f l) eqn:Hex; [|done].
  apply filter_nonempty_existsb in Hex. by destruct Hex.
Qed.

(** C2, as the code has it.  When no Passport row exists for the key, the
    UPDATE changes zero rows and [load_passport_record] goes on to
    [update_or_create]: for a community that exists it creates the row and
    returns the row it created (not [None]), and the new row keeps the
    default [requires_calculation], so it still needs work; for a
    community that does not exist the insert fails with IntegrityError and
    no row is created. *)
Theorem missing_passport_created_and_returned
    (community_id : Z) (address : string) (w : World) :
  List.filter (passport_matches (lower address) community_id) (passports w) = [] ->
  Passport_objects_claim (lower address) community_id w = (Ok 0%nat, w)
  /\ (forall community,
        communities w !! community_id = Some community ->
        load_passport_record community_id address w
        = (Ok (Some (Passport.mk (next_passport_pk w) (lower address) community_id
                       Passport_requires_calculation_default)),
           set_passports
             (passports w ++ [Passport.mk (next_passport_pk w) (lower address) community_id
                                Passport_requires_calculation_default])
             (next_passport_pk w + 1) w)
        /\ not_false (Passport.mk (next_passport_pk w) (lower address) community_id
                        Passport_requires_calculation_default) = true)
  /\ (communities w !! community_id = None ->
      load_passport_record community_id address w
      = (Raise (PyException IntegrityError "FOREIGN KEY constraint failed"), w)).
Proof.
  intros Hnone.
  assert (Hclaim : Passport_objects_claim (lower address) community_id w = (Ok 0%nat, w)).
  { apply Passport_objects_claim_none. unfold claimable.
    by rewrite filter_andb, Hnone. }
  split; [done|].
  assert (Hcreate : load_passport_record community_id address w
                    = match Passport_objects_update_or_create (lower address) community_id w with
                      | (Ok p, w') => (Ok (Some p), w')
                      | (Raise e, w') => (Raise e, w')
                      end).
  { unfold load_passport_record, mbind, M_bind. rewrite Hclaim. simpl.
    rewrite (existsb_filter_nil _ _ Hnone). simpl.
    by destruct (Passport_objects_update_or_create (lower address) community_id w) as [[p|e] w']. }
  rewrite Hcreate. unfold Passport_objects_update_or_create. rewrite Hnone. split.
  - intros community Hcommunity. by rewrite Hcommunity.
  - intros Hmissing. by rewrite Hmissing.
Qed.

Lemma missing_passport_created_and_returned_witness :
  Passport_objects_claim (lower "0xAB") 7 empty_world = (Ok 0%nat, empty_world)
  /\ (load_passport_record 7 "0xAB" empty_world
      = (Ok (Some (Passport.mk 1 "0xab" 7 None)),
         set_passports [Passport.mk 1 "0xab" 7 None] 2 empty_world)
      /\ not_false (Passport.mk 1 "0xab" 7 None) = true)
  /\ load_passport_record 9 "0xAB" empty_world
     = (Raise (PyException IntegrityError "FOREIGN KEY constraint failed"), empty_world).
Proof.
  destruct (missing_passport_created_and_returned 7 "0xAB" empty_world eq_refl)
    as (Hclaim & Hcreated & _).
  destruct (missing_passport_created_and_returned 9 "0xAB" empty_world eq_refl)
    as (_ & _ & Hrefused).
  split; [exact Hclaim|]. split.
  - apply (Hcreated (Community.mk 7 "LIFO")). reflexivity.
  - apply Hrefused. reflexivity.
Defined.

(** C2, as the claim states it, fails: for a key without a row the UPDATE
    changes zero rows and the call returns the passport it has just
    created, not [None]. *)
Lemma missing_passport_not_none :
  List.filter (passport_matches (lower "0xAB") 7) (passports empty_world) = []
  /\ fst (Passport_objects_claim (lower "0xAB") 7 empty_world) = Ok 0%nat
  /\ fst (load_passport_record 7 "0xAB" empty_world)
     = Ok (Some (Passport.mk 1 "0xab" 7 None))
  /\ fst (load_passport_record 7 "0xAB" empty_world) <> Ok None.
Proof. repeat split; try reflexivity. discriminate. Qed.

(** [load_passport_record] writes to the Passport table only. *)
Lemma load_passport_record_frame (community_id : Z) (address : string) (w : World) :
  let w' := snd (load_passport_record community_id address w) in
  stamps w' = stamps w /\ scores w' = scores w /\ communities w' = communities w
  /\ clock_reads w' = clock_reads w /\ log w' = log w.
Proof.
  unfold load_passport_record, mbind, M_bind. simpl.
  destruct (_ =? _)%nat; simpl.
  - unfold Passport_objects_get. simpl.
    destruct (List.filter _ _) as [|p [|q l]]; simpl; done.
  - destruct (existsb _ _); simpl; [done|].
    unfold Passport_objects_update_or_create. simpl.
    destruct (List.filter _ _) as [|p [|q l]]; simpl; try done.
    by destruct (communities w !! community_id).
Qed.

(** What [score_passport] does, by the outcome of the claim. *)
Lemma score_passport_unfold (ext : Collaborators) (community_id : Z) (address : string) (w : World) :
  score_passport ext community_id address w
  = match load_passport_record community_id address (request_logged w) with
    | (Raise e, w1) => handle_exception None e w1
    | (Ok None, w1) =>
        log_info "Passport no passport found for address='%s', community_id='%s' that has requires_calculation=True or None" w1
    | (Ok (Some passport), w1) =>
        match score_claimed ext passport community_id address w1 with
        | (Raise e, w2) => handle_exception (Some passport) e w2
        | ok => ok
        end
    end.
Proof. reflexivity. Qed.

(** C7. When the passport of the key exists and its
    [requires_calculation] is false (as a DONE run leaves it), running
    [score_passport] again is a no-op: the claim returns [None], the task
    returns without an exception, and the Stamp, Score and Passport tables
    are what they were. *)
Theorem rerun_after_done_is_noop
    (ext : Collaborators) (community_id : Z) (address : string) (w : World) (p : Passport.t) :
  List.filter (passport_matches (lower address) community_id) (passports w) = [p] ->
  Passport.requires_calculation p = Some false ->
  fst (load_passport_record community_id address w) = Ok None
  /\ fst (score_passport ext community_id address w) = Ok tt
  /\ stamps (snd (score_passport ext community_id address w)) = stamps w
  /\ scores (snd (score_passport ext community_id address w)) = scores w
  /\ passports (snd (score_passport ext community_id address w)) = passports w.
Proof.
  intros Hrow Hfalse.
  assert (Hload : forall w0, passports w0 = passports w ->
            load_passport_record community_id address w0 = (Ok None, w0)).
  { intros w0 Hps.
    assert (Hclaim : Passport_objects_claim (lower address) community_id w0 = (Ok 0%nat, w0)).
    { apply Passport_objects_claim_none. unfold claimable.
      rewrite filter_andb, Hps, Hrow. simpl. unfold not_false. by rewrite Hfalse. }
    unfold load_passport_record, mbind, M_bind. rewrite Hclaim. simpl.
    assert (Hex : existsb (passport_matches (lower address) community_id) (passports w0) = true).
    { apply filter_nonempty_existsb. by rewrite Hps, Hrow. }
    by rewrite Hex. }
  split; [by rewrite Hload|].
  rewrite score_passport_unfold, (Hload (request_logged w)) by done.
  simpl. done.
Qed.

Lemma rerun_after_done_is_noop_witness :
  fst (load_passport_record 7 "0xAB" done_world) = Ok None
  /\ fst (score_passport (sample_collaborators JNull [] []) 7 "0xAB" done_world) = Ok tt
  /\ stamps (snd (score_passport (sample_collaborators JNull [] []) 7 "0xAB" done_world))
     = stamps done_world
  /\ scores (snd (score_passport (sample_collaborators JNull [] []) 7 "0xAB" done_world))
     = scores done_world
  /\ passports (snd (score_passport (sample_collaborators JNull [] []) 7 "0xAB" done_world))
     = passports done_world.
Proof.
  apply (rerun_after_done_is_noop (sample_collaborators JNull [] []) 7 "0xAB" done_world
           (Passport.mk 1 "0xab" 7 (Some false))); reflexivity.
Defined.

(** The two tasks run the same pipeline. *)
Lemma tasks_agree (ext : Collaborators) (community_id : Z) (address : string) :
  score_passport_passport ext community_id address
  = score_registry_passport ext community_id address.
Proof. reflexivity. Qed.

(** ** Failures of a run *)

(** A claimed run that raises ends in the [except] clause with the passport
    at hand: one error line, one ERROR row. *)
Lemma score_passport_claimed_failure
    (ext : Collaborators) (community_id : Z) (address : string)
    (w w1 w2 : World) (passport : Passport.t) (e : exn) :
  load_passport_record community_id address (request_logged w) = (Ok (Some passport), w1) ->
  score_claimed ext passport community_id address w1 = (Raise e, w2) ->
  exists msg,
    score_passport ext community_id address w
    = (Ok tt,
       set_scores
         (<[Passport.pk passport := Score.mk None Score.ERROR None None (Some (error_text e))]>
            (scores w2))
         (add_log Log.error msg w2)).
Proof.
  intros Hload Hrun. rewrite score_passport_unfold, Hload, Hrun.
  destruct e as [detail|cls str]; eexists; reflexivity.
Qed.

(** C3. A run that claimed a passport and then raised leaves a Score row
    for that passport with status ERROR, a null score and the error text
    ([e.detail] for an APIException, [str(e)] otherwise), and returns
    normally; a run whose claim itself raised logs the error, returns
    normally and leaves the Score table as it was. *)
Theorem run_failure_recorded
    (ext : Collaborators) (community_id : Z) (address : string) (w : World) :
  (forall passport w1 e w2,
     load_passport_record community_id address (request_logged w) = (Ok (Some passport), w1) ->
     score_claimed ext passport community_id address w1 = (Raise e, w2) ->
     fst (score_passport ext community_id address w) = Ok tt
     /\ (exists row,
          scores (snd (score_passport ext community_id address w)) !! Passport.pk passport
          = Some row
          /\ Score.status row = Score.ERROR
          /\ Score.score row = None
          /\ Score.error row = Some match e with
                                    | APIException detail => detail
                                    | PyException _ str => str
                                    end)
     /\ exists msg,
          log (snd (score_passport ext community_id address w)) = log w2 ++ [(Log.error, msg)])
  /\ (forall e w1,
     load_passport_record community_id address (request_logged w) = (Raise e, w1) ->
     fst (score_passport ext community_id address w) = Ok tt
     /\ scores (snd (score_passport ext community_id address w)) = scores w
     /\ exists msg,
          log (snd (score_passport ext community_id address w)) = log w1 ++ [(Log.error, msg)]).
Proof.
  split.
  - intros passport w1 e w2 Hload Hrun.
    destruct (score_passport_claimed_failure ext _ _ _ _ _ _ _ Hload Hrun) as [msg ->].
    simpl. split; [done|]. split; [|by exists msg].
    eexists. split; [apply lookup_insert_eq|]. by destruct e.
  - intros e w1 Hload.
    pose proof (load_passport_record_frame community_id address (request_logged w)) as Hframe.
    rewrite Hload in Hframe. simpl in Hframe. destruct Hframe as (_ & Hsc & _).
    rewrite score_passport_unfold, Hload.
    destruct e as [detail|cls str]; simpl; (split; [done|]); (split; [done|]);
      eexists; reflexivity.
Qed.

Lemma run_failure_recorded_witness :
  (fst (score_passport (sample_collaborators JNull [] []) 7 "0xAB" needs_world) = Ok tt
   /\ (exists row,
        scores (snd (score_passport (sample_collaborators JNull [] []) 7 "0xAB" needs_world))
          !! 1%Z = Some row
        /\ Score.status row = Score.ERROR
        /\ Score.score row = None
        /\ Score.error row = Some "No Passport found for this address.")
   /\ exists msg,
        log (snd (score_passport (sample_collaborators JNull [] []) 7 "0xAB" needs_world))
        = [(Log.info, "score_passport request for community_id=%s, address='%s'")]
          ++ [(Log.error, msg)])
  /\ (fst (score_passport (sample_collaborators JNull [] []) 7 "0xAB" twin_world) = Ok tt
      /\ scores (snd (score_passport (sample_collaborators JNull [] []) 7 "0xAB" twin_world))
         = scores twin_world
      /\ exists msg,
           log (snd (score_passport (sample_collaborators JNull [] []) 7 "0xAB" twin_world))
           = [(Log.info, "score_passport request for community_id=%s, address='%s'")]
             ++ [(Log.error, msg)]).
Proof.
  split.
  - apply (proj1 (run_failure_recorded (sample_collaborators JNull [] []) 7 "0xAB" needs_world)
             (Passport.mk 1 "0xab" 7 (Some false))
             (set_passports
                [Passport.mk 1 "0xab" 7 (Some false); Passport.mk 2 "0xcd" 7 (Some false)] 3
                (request_logged needs_world))
             (APIException "No Passport found for this address.")
             (set_stamps [Stamp.mk (JStr "h9") 2 (JStr "Ens") (JDict [])]
                (set_passports
                   [Passport.mk 1 "0xab" 7 (Some false); Passport.mk 2 "0xcd" 7 (Some false)] 3
                   (request_logged needs_world))));
      reflexivity.
  - apply (proj2 (run_failure_recorded (sample_collaborators JNull [] []) 7 "0xAB" twin_world)
             (PyException MultipleObjectsReturned
                "get() returned more than one Passport -- it returned 2!")
             (set_passports
                [Passport.mk 1 "0xab" 7 (Some false); Passport.mk 2 "0xab" 7 (Some false)] 3
                (request_logged twin_world)));
      reflexivity.
Defined.

(** C8. The ERROR row of a claimed run that failed is a full replacement:
    whatever Score row the passport had before (a DONE row with its score,
    timestamp and evidence included), the row is now ERROR with score,
    last_score_timestamp and evidence null and only the error text set. *)
Theorem error_row_is_full_replacement
    (ext : Collaborators) (community_id : Z) (address : string)
    (w w1 w2 : World) (passport : Passport.t) (e : exn) :
  load_passport_record community_id address (request_logged w) = (Ok (Some passport), w1) ->
  score_claimed ext passport community_id address w1 = (Raise e, w2) ->
  scores (snd (score_passport ext community_id address w)) !! Passport.pk passport
  = Some (Score.mk None Score.ERROR None None (Some (error_text e))).
Proof.
  intros Hload Hrun.
  destruct (score_passport_claimed_failure ext _ _ _ _ _ _ _ Hload Hrun) as [msg ->].
  simpl. apply lookup_insert_eq.
Qed.

Lemma error_row_is_full_replacement_witness :
  scores needs_world !! 1%Z = Some (Score.mk (Some 12%Z) Score.DONE (Some 500%Z) None None)
  /\ scores (snd (score_passport (sample_collaborators JNull [] []) 7 "0xAB" needs_world)) !! 1%Z
     = Some (Score.mk None Score.ERROR None None (Some "No Passport found for this address.")).
Proof.
  split; [reflexivity|].
  apply (error_row_is_full_replacement (sample_collaborators JNull [] []) 7 "0xAB" needs_world
           (set_passports
              [Passport.mk 1 "0xab" 7 (Some false); Passport.mk 2 "0xcd" 7 (Some false)] 3
              (request_logged needs_world))
           (set_stamps [Stamp.mk (JStr "h9") 2 (JStr "Ens") (JDict [])]
              (set_passports
                 [Passport.mk 1 "0xab" 7 (Some false); Passport.mk 2 "0xcd" 7 (Some false)] 3
                 (request_logged needs_world)))
           (Passport.mk 1 "0xab" 7 (Some false))
           (APIException "No Passport found for this address."));
    reflexivity.
Defined.

(** ** The stamps of a run that fails *)

Lemma filter_negb_filter {A} (f : A -> bool) (l : list A) :
  List.filter f (List.filter (fun x => negb (f x)) l) = [].
Proof.
  induction l as [|x l IH]; simpl; [done|].
  destruct (f x) eqn:Hf; simpl; [done|]. by rewrite Hf.
Qed.

(** The deletion leaves the passport without a stamp and the other
    passports with theirs. *)
Lemma remove_existing_stamps_from_db_spec (passport : Passport.t) (w : World) :
  fst (remove_existing_stamps_from_db passport w) = Ok tt
  /\ stamps_of (Passport.pk passport) (snd (remove_existing_stamps_from_db passport w)) = []
  /\ forall other, other <> Passport.pk passport ->
       stamps_of other (snd (remove_existing_stamps_from_db passport w)) = stamps_of other w.
Proof.
  unfold stamps_of. simpl. split; [done|]. split.
  - apply (filter_negb_filter (fun s => Z.eqb (Stamp.passport_id s) (Passport.pk passport))).
  - intros other Hne.
    induction (stamps w) as [|s l IH]; simpl; [done|].
    destruct (Z.eqb_spec (Stamp.passport_id s) (Passport.pk passport)) as [Heq|Hneq]; simpl.
    + rewrite IH. destruct (Z.eqb_spec (Stamp.passport_id s) other); [congruence|done].
    + by rewrite IH.
Qed.

(** The fetch reads nothing of the world and writes nothing to it. *)
Lemma load_passport_data_pure (ext : Collaborators) (address : string) (w w0 : World) :
  load_passport_data ext address w = (fst (load_passport_data ext address w0), w).
Proof.
  unfold load_passport_data, mbind, M_bind, lift, raise, mret, M_ret.
  destruct (get_passport ext address) as [data|e]; [|done].
  by destruct (negb (py_truthy data)).
Qed.

(** C9, as the code has it.  In a claimed run the stamps of the passport
    are deleted before the passport data is fetched, so the fetch starts
    from a passport without stamps; when the fetch fails (the no-data
    condition included) the run ends with no stamp for the passport and
    with the stamps of every other passport as they were. *)
Theorem fetch_failure_leaves_no_stamps
    (ext : Collaborators) (community_id : Z) (address : string)
    (w w1 : World) (passport : Passport.t) (e : exn) :
  load_passport_record community_id address (request_logged w) = (Ok (Some passport), w1) ->
  fst (load_passport_data ext address w1) = Raise e ->
  score_claimed ext passport community_id address w1
  = (Raise e, snd (remove_existing_stamps_from_db passport w1))
  /\ stamps_of (Passport.pk passport) (snd (remove_existing_stamps_from_db passport w1)) = []
  /\ stamps_of (Passport.pk passport) (snd (score_passport ext community_id address w)) = []
  /\ forall other, other <> Passport.pk passport ->
       stamps_of other (snd (score_passport ext community_id address w)) = stamps_of other w.
Proof.
  intros Hload Hfetch.
  destruct (remove_existing_stamps_from_db_spec passport w1) as (_ & Hgone & Hkept).
  assert (Hrun : score_claimed ext passport community_id address w1
                 = (Raise e, snd (remove_existing_stamps_from_db passport w1))).
  { unfold score_claimed, mbind, M_bind. simpl.
    rewrite (load_passport_data_pure ext address _ w1), Hfetch. done. }
  split; [done|]. split; [done|].
  destruct (score_passport_claimed_failure ext _ _ _ _ _ _ _ Hload Hrun) as [msg ->].
  pose proof (load_passport_record_frame community_id address (request_logged w)) as Hframe.
  rewrite Hload in Hframe. simpl in Hframe. destruct Hframe as (Hst & _).
  split; [exact Hgone|].
  intros other Hne. specialize (Hkept other Hne).
  unfold stamps_of in *. simpl in *. by rewrite Hkept, Hst.
Qed.

Lemma fetch_failure_leaves_no_stamps_witness :
  stamps_of 1 needs_world = [Stamp.mk (JStr "h1") 1 (JStr "Google") (JDict [])]
  /\ stamps_of 1 (snd (score_passport (sample_collaborators JNull [] []) 7 "0xAB" needs_world))
     = []
  /\ stamps_of 2 (snd (score_passport (sample_collaborators JNull [] []) 7 "0xAB" needs_world))
     = stamps_of 2 needs_world.
Proof.
  split; [reflexivity|].
  pose proof (fetch_failure_leaves_no_stamps (sample_collaborators JNull [] []) 7 "0xAB"
                needs_world
                (set_passports
                   [Passport.mk 1 "0xab" 7 (Some false); Passport.mk 2 "0xcd" 7 (Some false)] 3
                   (request_logged needs_world))
                (Passport.mk 1 "0xab" 7 (Some false))
                (APIException "No Passport found for this address.")
                eq_refl eq_refl) as (_ & _ & Hnone & Hother).
  split; [exact Hnone|]. apply Hother. discriminate.
Defined.

(** C9, as the claim states it, fails: this claimed run fails after the
    fetch, in the scorer; its Score row is ERROR and the passport holds the
    stamp the run has just saved. *)
Lemma late_failure_keeps_saved_stamps :
  scores (snd (score_passport (sample_collaborators one_stamp_data [] [1%Z]) 7 "0xAB" needs_world))
    !! 1%Z
  = Some (Score.mk None Score.ERROR None None (Some "scorer unavailable"))
  /\ stamps_of 1
       (snd (score_passport (sample_collaborators one_stamp_data [] [1%Z]) 7 "0xAB" needs_world))
     = [Stamp.mk (JStr "h2") 1 (JStr "Twitter")
          (JDict [("expirationDate", JStr "2030-01-01T00:00:00Z");
                  ("credentialSubject", JDict [("hash", JStr "h2")])])].
Proof. split; reflexivity. Qed.

(** ** Validation of the credentials *)

Lemma validate_stamps_app
    (ext : Collaborators) (passport : Passport.t) (did : string)
    (before rest : list json) (w : World) :
  validate_stamps ext passport did (before ++ rest) w
  = match validate_stamps ext passport did before w with
    | (Ok _, w') => validate_stamps ext passport did rest w'
    | (Raise e, w') => (Raise e, w')
    end.
Proof.
  revert w. induction before as [|s l IH]; intros w; simpl.
  - done.
  - unfold mbind, M_bind.
    destruct (validate_stamp ext passport did s w) as [[[]|e] w']; [apply IH | done].
Qed.

(** C4, as the code has it.  A credential whose [expirationDate] is in
    neither of the two formats makes [validate_stamp] raise the ValueError
    of the second [strptime]: nothing is written for it, and the loop stops
    there, with the exception, before the credentials that follow. *)
Theorem unparseable_expiration_raises
    (ext : Collaborators) (passport : Passport.t) (did : string)
    (stamp credential : json) (errors : list string) (date text1 text2 : string) (w : World) :
  py_getitem stamp "credential" = Ok credential ->
  validate_credential ext did credential = Ok errors ->
  py_getitem credential "expirationDate" = Ok (JStr date) ->
  strptime ext date "%Y-%m-%dT%H:%M:%S.%fZ" = inr text1 ->
  strptime ext date "%Y-%m-%dT%H:%M:%SZ" = inr text2 ->
  validate_stamp ext passport did stamp w = (Raise (PyException ValueError text2), w)
  /\ forall before rest w0,
       validate_stamps ext passport did before w0 = (Ok tt, w) ->
       validate_stamps ext passport did (before ++ stamp :: rest) w0
       = (Raise (PyException ValueError text2), w).
Proof.
  intros Hcred Herrors Hdate Hfrac Hplain.
  assert (Hone : validate_stamp ext passport did stamp w
                 = (Raise (PyException ValueError text2), w)).
  { unfold validate_stamp, mbind, M_bind, lift. rewrite Hcred, Herrors.
    unfold stamp_expiration, parse_expiration, mbind, Outcome_bind.
    rewrite Hcred, Hdate. unfold datetime_strptime. by rewrite Hfrac, Hplain. }
  split; [done|]. intros before rest w0 Hbefore.
  rewrite validate_stamps_app, Hbefore. simpl.
  unfold mbind, M_bind. by rewrite Hone.
Qed.

Lemma unparseable_expiration_raises_witness :
  validate_stamp (sample_collaborators bad_date_data [] []) (Passport.mk 1 "0xab" 7 (Some false))
    "did:pkh:eip155:1:0xab" (sample_stamp "Google" "h3" "next year") needs_world
  = (Raise (PyException ValueError
              "time data 'next year' does not match format '%Y-%m-%dT%H:%M:%SZ'"),
     needs_world)
  /\ validate_stamps (sample_collaborators bad_date_data [] [])
       (Passport.mk 1 "0xab" 7 (Some false)) "did:pkh:eip155:1:0xab"
       ([] ++ sample_stamp "Google" "h3" "next year"
           :: [sample_stamp "Ens" "h4" "2030-01-01T00:00:00Z"]) needs_world
     = (Raise (PyException ValueError
                 "time data 'next year' does not match format '%Y-%m-%dT%H:%M:%SZ'"),
        needs_world).
Proof.
  pose proof (unparseable_expiration_raises (sample_collaborators bad_date_data [] [])
                (Passport.mk 1 "0xab" 7 (Some false)) "did:pkh:eip155:1:0xab"
                (sample_stamp "Google" "h3" "next year")
                (JDict [("expirationDate", JStr "next year");
                        ("credentialSubject", JDict [("hash", JStr "h3")])])
                [] "next year"
                "time data 'next year' does not match format '%Y-%m-%dT%H:%M:%S.%fZ'"
                "time data 'next year' does not match format '%Y-%m-%dT%H:%M:%SZ'"
                needs_world eq_refl eq_refl eq_refl eq_refl eq_refl)
    as [Hone Hloop].
  split; [exact Hone|].
  apply (Hloop [] [sample_stamp "Ens" "h4" "2030-01-01T00:00:00Z"] needs_world).
  reflexivity.
Defined.

(** C4, as the claim states it, fails: the second of three credentials has
    an unparseable date; the run ends with an ERROR score whose text is the
    ValueError, and the third credential, a valid one, is not saved. *)
Lemma unparseable_expiration_aborts_run :
  scores (snd (score_passport (sample_collaborators bad_date_data [] []) 7 "0xAB" needs_world))
    !! 1%Z
  = Some (Score.mk None Score.ERROR None None
            (Some "time data 'next year' does not match format '%Y-%m-%dT%H:%M:%SZ'"))
  /\ map Stamp.provider
       (stamps_of 1
          (snd (score_passport (sample_collaborators bad_date_data [] []) 7 "0xAB" needs_world)))
     = [JStr "Twitter"].
Proof. split; reflexivity. Qed.

(** What one round of the loop does once its reads have succeeded: a clock
    read, then the upsert or the log line. *)
Lemma validate_stamp_decision
    (ext : Collaborators) (passport : Passport.t) (did : string)
    (stamp credential subject hash provider : json)
    (errors : list string) (expiration : Z) (issuer : bool) (w : World) :
  py_getitem stamp "credential" = Ok credential ->
  py_getitem credential "credentialSubject" = Ok subject ->
  py_getitem subject "hash" = Ok hash ->
  py_getitem stamp "provider" = Ok provider ->
  validate_credential ext did credential = Ok errors ->
  stamp_expiration ext stamp = Ok expiration ->
  verify_issuer ext stamp = Ok issuer ->
  validate_stamp ext passport did stamp w
  = if (length errors =? 0)%nat
       && negb (expiration <? datetime_now ext (clock_reads w))%Z
       && issuer
    then Stamp_objects_update_or_create hash (Passport.pk passport) provider credential (tick w)
    else (Ok tt,
          add_log Log.info
            "Stamp not created. Stamp=%s\nReason: errors=%s stamp_is_expired=%s is_issuer_verified=%s"
            (tick w)).
Proof.
  intros Hcred Hsubject Hhash Hprovider Herrors Hexp Hissuer.
  unfold validate_stamp, mbind, M_bind, lift.
  rewrite Hcred, Herrors, Hexp, Hissuer. simpl.
  destruct (_ && _ && _); [|done].
  by rewrite Hsubject, Hhash, Hprovider.
Qed.

(** C5, as the code has it.  For a credential whose reads succeed, the
    round rejects it (logs it and writes no stamp) exactly when the
    verifier reported an error, or the expiration instant is strictly
    before the clock's [now], or the issuer is not verified; otherwise it
    upserts the stamp.  A credential that expires exactly at [now] is not
    expired. *)
Theorem stamp_rejected_exactly_when
    (ext : Collaborators) (passport : Passport.t) (did : string)
    (stamp credential subject hash provider : json)
    (errors : list string) (expiration : Z) (issuer : bool) (w : World) :
  py_getitem stamp "credential" = Ok credential ->
  py_getitem credential "credentialSubject" = Ok subject ->
  py_getitem subject "hash" = Ok hash ->
  py_getitem stamp "provider" = Ok provider ->
  validate_credential ext did credential = Ok errors ->
  stamp_expiration ext stamp = Ok expiration ->
  verify_issuer ext stamp = Ok issuer ->
  (errors <> [] \/ (expiration < datetime_now ext (clock_reads w))%Z \/ issuer = false ->
   validate_stamp ext passport did stamp w
   = (Ok tt,
      add_log Log.info
        "Stamp not created. Stamp=%s\nReason: errors=%s stamp_is_expired=%s is_issuer_verified=%s"
        (tick w)))
  /\ (errors = [] /\ (datetime_now ext (clock_reads w) <= expiration)%Z /\ issuer = true ->
      validate_stamp ext passport did stamp w
      = Stamp_objects_update_or_create hash (Passport.pk passport) provider credential (tick w))
  /\ (errors = [] /\ expiration = datetime_now ext (clock_reads w) /\ issuer = true ->
      validate_stamp ext passport did stamp w
      = Stamp_objects_update_or_create hash (Passport.pk passport) provider credential (tick w)).
Proof.
  intros Hcred Hsubject Hhash Hprovider Herrors Hexp Hissuer.
  rewrite (validate_stamp_decision ext passport did stamp credential subject hash provider
             errors expiration issuer w) by done.
  split; [|split].
  - intros [Herr|[Hlate| ->]].
    + destruct errors; [done|]. done.
    + apply Z.ltb_lt in Hlate. rewrite Hlate. simpl. by rewrite andb_false_r.
    + by rewrite andb_false_r.
  - intros (-> & Hle & ->). apply Z.ltb_ge in Hle. by rewrite Hle.
  - intros (-> & -> & ->). by rewrite Z.ltb_irrefl.
Qed.

Lemma stamp_rejected_exactly_when_witness :
  validate_stamp (sample_collaborators expiring_now_data [] [])
    (Passport.mk 1 "0xab" 7 (Some false)) "did:pkh:eip155:1:0xab"
    (sample_stamp "Twitter" "h2" "2023-01-01T00:00:00Z") empty_world
  = Stamp_objects_update_or_create (JStr "h2") 1 (JStr "Twitter")
      (JDict [("expirationDate", JStr "2023-01-01T00:00:00Z");
              ("credentialSubject", JDict [("hash", JStr "h2")])])
      (tick empty_world).
Proof.
  apply (proj2 (proj2
    (stamp_rejected_exactly_when (sample_collaborators expiring_now_data [] [])
       (Passport.mk 1 "0xab" 7 (Some false)) "did:pkh:eip155:1:0xab"
       (sample_stamp "Twitter" "h2" "2023-01-01T00:00:00Z")
       (JDict [("expirationDate", JStr "2023-01-01T00:00:00Z");
               ("credentialSubject", JDict [("hash", JStr "h2")])])
       (JDict [("hash", JStr "h2")]) (JStr "h2") (JStr "Twitter")
       [] 1000%Z true empty_world
       eq_refl eq_refl eq_refl eq_refl eq_refl eq_refl eq_refl))).
  repeat split.
Defined.

(** C5, as the claim states it, fails: the credential of this run expires
    at the instant the clock shows, the verifier has no error and the
    issuer is verified; its stamp is saved and the run is DONE. *)
Lemma expiring_now_is_saved :
  stamp_expiration (sample_collaborators expiring_now_data [] [])
    (sample_stamp "Twitter" "h2" "2023-01-01T00:00:00Z") = Ok 1000%Z
  /\ datetime_now (sample_collaborators expiring_now_data [] []) 0 = 1000%Z
  /\ map Stamp.hash
       (stamps_of 1
          (snd (score_passport (sample_collaborators expiring_now_data [] []) 7 "0xAB"
                  needs_world)))
     = [JStr "h2"]
  /\ scores (snd (score_passport (sample_collaborators expiring_now_data [] []) 7 "0xAB"
                    needs_world)) !! 1%Z
     = Some (Score.mk (Some 5%Z) Score.DONE (Some 1000%Z) None None).
Proof. repeat split. Qed.

(** ** The key of a stamp *)

Lemma stamp_matches_eq (hash : json) (passport_id : Z) (s : Stamp.t) :
  stamp_matches hash passport_id s = true
  <-> Stamp.hash s = hash /\ Stamp.passport_id s = passport_id.
Proof.
  unfold stamp_matches. by rewrite andb_true_iff, json_eqb_eq, Z.eqb_eq.
Qed.

Lemma stamp_matches_overwrite (hash hash' : json) (passport_id passport_id' : Z)
    (provider credential : json) (s : Stamp.t) :
  stamp_matches hash' passport_id'
    (if stamp_matches hash passport_id s
     then Stamp.mk (Stamp.hash s) (Stamp.passport_id s) provider credential
     else s)
  = stamp_matches hash' passport_id' s.
Proof. by destruct (stamp_matches hash passport_id s). Qed.

(** After an upsert that returned, the key has one row, with the provider
    and the credential of the call. *)
Lemma Stamp_objects_update_or_create_row
    (hash : json) (passport_id : Z) (provider credential : json) (w w' : World) :
  Stamp_objects_update_or_create hash passport_id provider credential w = (Ok tt, w') ->
  List.filter (stamp_matches hash passport_id) (stamps w')
  = [Stamp.mk hash passport_id provider credential].
Proof.
  unfold Stamp_objects_update_or_create.
  destruct (List.filter (stamp_matches hash passport_id) (stamps w)) as [|old [|more l]] eqn:Hrows;
    intros Hret; [| |done]; injection Hret as <-; simpl.
  - rewrite List.filter_app, Hrows. simpl.
    unfold stamp_matches. simpl. by rewrite json_eqb_refl, Z.eqb_refl.
  - rewrite filter_map_stable by (intros; apply stamp_matches_overwrite).
    rewrite Hrows. simpl.
    assert (Hold : stamp_matches hash passport_id old = true).
    { assert (Hin : In old (List.filter (stamp_matches hash passport_id) (stamps w)))
        by (rewrite Hrows; by left).
      by apply filter_In in Hin as [_ ?]. }
    rewrite Hold. by apply stamp_matches_eq in Hold as [-> ->].
Qed.

(** An upsert keeps the keys of the table unique, whatever it returns. *)
Lemma Stamp_objects_update_or_create_unique
    (hash : json) (passport_id : Z) (provider credential : json) (w : World) :
  stamp_keys_unique (stamps w) ->
  stamp_keys_unique
    (stamps (snd (Stamp_objects_update_or_create hash passport_id provider credential w))).
Proof.
  intros Huniq hash' passport_id'. unfold Stamp_objects_update_or_create.
  destruct (List.filter (stamp_matches hash passport_id) (stamps w)) as [|old [|more l]] eqn:Hrows;
    simpl; [| |apply Huniq].
  - rewrite List.filter_app, length_app. simpl.
    destruct (stamp_matches hash' passport_id' _) eqn:Hnew; simpl.
    + apply stamp_matches_eq in Hnew as [<- <-]. simpl. rewrite Hrows. simpl. lia.
    + specialize (Huniq hash' passport_id'). lia.
  - rewrite filter_map_stable by (intros; apply stamp_matches_overwrite).
    rewrite length_map. apply Huniq.
Qed.

(** On a table with unique keys the upsert never raises. *)
Lemma Stamp_objects_update_or_create_returns
    (hash : json) (passport_id : Z) (provider credential : json) (w : World) :
  stamp_keys_unique (stamps w) ->
  exists w', Stamp_objects_update_or_create hash passport_id provider credential w = (Ok tt, w').
Proof.
  intros Huniq. specialize (Huniq hash passport_id). unfold Stamp_objects_update_or_create.
  destruct (List.filter (stamp_matches hash passport_id) (stamps w)) as [|old [|more l]];
    simpl in Huniq; [by eexists | by eexists | lia].
Qed.

(** One round of the loop either leaves the Stamp table alone or ends in
    one upsert for the passport. *)
Lemma validate_stamp_writes
    (ext : Collaborators) (passport : Passport.t) (did : string) (stamp : json) (w : World) :
  stamps (snd (validate_stamp ext passport did stamp w)) = stamps w
  \/ exists hash provider credential w0,
       stamps w0 = stamps w
       /\ validate_stamp ext passport did stamp w
          = Stamp_objects_update_or_create hash (Passport.pk passport) provider credential w0.
Proof.
  unfold validate_stamp, mbind, M_bind, lift.
  destruct (py_getitem stamp "credential") as [credential|e]; [|by left].
  destruct (validate_credential ext did credential) as [errors|e]; [|by left].
  destruct (stamp_expiration ext stamp) as [expiration|e]; [|by left].
  destruct (verify_issuer ext stamp) as [issuer|e]; [|by left].
  simpl. destruct (_ && _ && _); [|by left].
  destruct (py_getitem credential "credentialSubject") as [subject|e]; [|by left].
  destruct (py_getitem subject "hash") as [hash|e]; [|by left].
  destruct (py_getitem stamp "provider") as [provider|e]; [|by left].
  right. by exists hash, provider, credential, (tick w).
Qed.

Lemma validate_stamp_unique
    (ext : Collaborators) (passport : Passport.t) (did : string) (stamp : json) (w : World) :
  stamp_keys_unique (stamps w) ->
  stamp_keys_unique (stamps (snd (validate_stamp ext passport did stamp w))).
Proof.
  intros Huniq.
  destruct (validate_stamp_writes ext passport did stamp w)
    as [->|(hash & provider & credential & w0 & Hsame & ->)]; [done|].
  apply Stamp_objects_update_or_create_unique. by rewrite Hsame.
Qed.

Lemma validate_stamps_unique
    (ext : Collaborators) (passport : Passport.t) (did : string) (todo : list json) (w : World) :
  stamp_keys_unique (stamps w) ->
  stamp_keys_unique (stamps (snd (validate_stamps ext passport did todo w))).
Proof.
  revert w. induction todo as [|stamp rest IH]; intros w Huniq; simpl; [done|].
  pose proof (validate_stamp_unique ext passport did stamp w Huniq) as Hstep.
  unfold mbind, M_bind.
  destruct (validate_stamp ext passport did stamp w) as [[[]|e] w1]; simpl in *; [|done].
  by apply IH.
Qed.

(** C10. The loop upserts by (hash, passport): it keeps the keys of the
    Stamp table unique, so a passport never holds two stamps under one
    hash.  Whatever the earlier credentials saved under a hash, a valid
    credential that comes last is saved without an exception and the row of
    its hash then carries its provider and its credential; and an upsert
    that follows one for the same key overwrites the row and adds none, so
    fewer stamps can be held than valid credentials came in. *)
Theorem stamps_unique_per_hash
    (ext : Collaborators) (passport : Passport.t) (did : string) (todo : list json) (w : World) :
  stamp_keys_unique (stamps w) ->
  stamp_keys_unique (stamps (snd (validate_stamps ext passport did todo w)))
  /\ (forall stamp credential subject hash provider expiration w1,
        validate_stamps ext passport did todo w = (Ok tt, w1) ->
        py_getitem stamp "credential" = Ok credential ->
        py_getitem credential "credentialSubject" = Ok subject ->
        py_getitem subject "hash" = Ok hash ->
        py_getitem stamp "provider" = Ok provider ->
        validate_credential ext did credential = Ok [] ->
        stamp_expiration ext stamp = Ok expiration ->
        (datetime_now ext (clock_reads w1) <= expiration)%Z ->
        verify_issuer ext stamp = Ok true ->
        exists w2,
          validate_stamps ext passport did (todo ++ [stamp]) w = (Ok tt, w2)
          /\ List.filter (stamp_matches hash (Passport.pk passport)) (stamps w2)
             = [Stamp.mk hash (Passport.pk passport) provider credential])
  /\ (forall hash provider1 credential1 provider2 credential2 w1,
        Stamp_objects_update_or_create hash (Passport.pk passport) provider1 credential1 w
        = (Ok tt, w1) ->
        exists w2,
          Stamp_objects_update_or_create hash (Passport.pk passport) provider2 credential2 w1
          = (Ok tt, w2)
          /\ List.filter (stamp_matches hash (Passport.pk passport)) (stamps w2)
             = [Stamp.mk hash (Passport.pk passport) provider2 credential2]
          /\ length (stamps w2) = length (stamps w1)).
Proof.
  intros Huniq. split; [by apply validate_stamps_unique|]. split.
  - intros stamp credential subject hash provider expiration w1
      Htodo Hcred Hsubject Hhash Hprovider Herrors Hexp Hnow Hissuer.
    pose proof (validate_stamps_unique ext passport did todo w Huniq) as Huniq1.
    rewrite Htodo in Huniq1. simpl in Huniq1.
    destruct (Stamp_objects_update_or_create_returns hash (Passport.pk passport)
                provider credential (tick w1) Huniq1) as [w2 Hsave].
    exists w2. split; [|by apply (Stamp_objects_update_or_create_row _ _ _ _ _ _ Hsave)].
    rewrite validate_stamps_app, Htodo. simpl. unfold mbind, M_bind.
    rewrite (validate_stamp_decision ext passport did stamp credential subject hash provider
               [] expiration true w1) by done.
    apply Z.ltb_ge in Hnow. rewrite Hnow. simpl. by rewrite Hsave.
  - intros hash provider1 credential1 provider2 credential2 w1 Hfirst.
    pose proof (Stamp_objects_update_or_create_row _ _ _ _ _ _ Hfirst) as Hrow.
    unfold Stamp_objects_update_or_create at 1. rewrite Hrow.
    eexists. split; [reflexivity|]. simpl. split.
    + rewrite filter_map_stable by (intros; apply stamp_matches_overwrite).
      rewrite Hrow. simpl. unfold stamp_matches. simpl.
      by rewrite json_eqb_refl, Z.eqb_refl.
    + apply length_map.
Qed.

Lemma stamps_unique_per_hash_witness :
  stamp_keys_unique
    (stamps (snd (validate_stamps (sample_collaborators JNull [] [])
                    (Passport.mk 1 "0xab" 7 (Some false)) "did:pkh:eip155:1:0xab"
                    [sample_stamp "Twitter" "h2" "2030-01-01T00:00:00Z"] empty_world)))
  /\ List.filter (stamp_matches (JStr "h2") 1)
       (stamps (snd (validate_stamps (sample_collaborators JNull [] [])
                       (Passport.mk 1 "0xab" 7 (Some false)) "did:pkh:eip155:1:0xab"
                       same_hash_stamps empty_world)))
     = [Stamp.mk (JStr "h2") 1 (JStr "Google")
          (JDict [("expirationDate", JStr "2030-01-01T00:00:00Z");
                  ("credentialSubject", JDict [("hash", JStr "h2")])])]
  /\ length (stamps (snd (validate_stamps (sample_collaborators JNull [] [])
                            (Passport.mk 1 "0xab" 7 (Some false)) "did:pkh:eip155:1:0xab"
                            same_hash_stamps empty_world)))
     = 1%nat.
Proof.
  assert (Hempty : stamp_keys_unique (stamps empty_world)).
  { intros hash passport_id. simpl. lia. }
  pose proof (stamps_unique_per_hash (sample_collaborators JNull [] [])
                (Passport.mk 1 "0xab" 7 (Some false)) "did:pkh:eip155:1:0xab"
                [sample_stamp "Twitter" "h2" "2030-01-01T00:00:00Z"] empty_world Hempty)
    as (Huniq & Hlast & _).
  split; [exact Huniq|]. split; [|reflexivity].
  destruct (Hlast (sample_stamp "Google" "h2" "2030-01-01T00:00:00Z")
              (JDict [("expirationDate", JStr "2030-01-01T00:00:00Z");
                      ("credentialSubject", JDict [("hash", JStr "h2")])])
              (JDict [("hash", JStr "h2")]) (JStr "h2") (JStr "Google") 2000%Z
              (snd (validate_stamps (sample_collaborators JNull [] [])
                      (Passport.mk 1 "0xab" 7 (Some false)) "did:pkh:eip155:1:0xab"
                      [sample_stamp "Twitter" "h2" "2030-01-01T00:00:00Z"] empty_world))
              eq_refl eq_refl eq_refl eq_refl eq_refl eq_refl eq_refl
              ltac:(simpl; lia) eq_refl) as (w2 & Hrun & Hrow).
  change (validate_stamps (sample_collaborators JNull [] [])
            (Passport.mk 1 "0xab" 7 (Some false)) "did:pkh:eip155:1:0xab"
            same_hash_stamps empty_world = (Ok tt, w2)) in Hrun.
  by rewrite Hrun.
Defined.

(** ** Rescoring the passports a deduplication affected *)

(** [calculate_score] writes one Score row, DONE, and only when it
    returns. *)
Lemma calculate_score_effect
    (ext : Collaborators) (passport : Passport.t) (community_id : Z) (w : World) :
  passports (snd (calculate_score ext passport community_id w)) = passports w
  /\ stamps (snd (calculate_score ext passport community_id w)) = stamps w
  /\ match fst (calculate_score ext passport community_id w) with
     | Ok _ =>
         exists row,
           scores (snd (calculate_score ext passport community_id w))
           = <[Passport.pk passport := row]> (scores w)
           /\ Score.status row = Score.DONE
     | Raise _ => scores (snd (calculate_score ext passport community_id w)) = scores w
     end.
Proof.
  unfold calculate_score, mbind, M_bind, lift, Community_objects_get. simpl.
  destruct (communities w !! community_id) as [community|]; simpl; [|done].
  destruct (get_scorer ext community) as [scorer|e]; simpl; [|done].
  destruct (compute_score scorer _ _) as [[|sd l]|e]; simpl; try done.
  repeat split. eexists. by split.
Qed.

Lemma rescore_affected_effect
    (ext : Collaborators) (affected_passports : list Passport.t) (w : World) :
  passports (snd (rescore_affected ext affected_passports w)) = passports w
  /\ stamps (snd (rescore_affected ext affected_passports w)) = stamps w
  /\ (forall k, Forall (fun q => Passport.pk q <> k) affected_passports ->
        scores (snd (rescore_affected ext affected_passports w)) !! k = scores w !! k)
  /\ (fst (rescore_affected ext affected_passports w) = Ok tt ->
      forall k, Exists (fun q => Passport.pk q = k) affected_passports ->
        exists row,
          scores (snd (rescore_affected ext affected_passports w)) !! k = Some row
          /\ Score.status row = Score.DONE).
Proof.
  revert w. induction affected_passports as [|q rest IH]; intros w.
  { simpl. repeat split; try done. intros _ k Hex. by apply Exists_nil in Hex. }
  simpl. unfold mbind, M_bind. simpl.
  set (w0 := set_scores _ (add_log _ _ w)).
  destruct (calculate_score_effect ext q (Passport.community_id q) w0) as (Hps & Hst & Hsc).
  destruct (calculate_score ext q (Passport.community_id q) w0) as [[[]|e] w1]; simpl in *.
  - destruct Hsc as (row & Hsc & Hdone).
    destruct (IH w1) as (Hps' & Hst' & Hother & Hall).
    rewrite Hps', Hst', Hps, Hst. repeat split; try done.
    + intros k Hk. inversion Hk as [|? ? Hq Hrest]; subst.
      rewrite (Hother k Hrest), Hsc, lookup_insert_ne by done.
      subst w0. simpl. by rewrite lookup_insert_ne.
    + intros Hok k Hk.
      destruct (decide (Exists (fun q' => Passport.pk q' = k) rest)) as [Hin|Hnot].
      * by apply Hall.
      * apply Exists_cons in Hk as [Hq|Hin]; [|done].
        exists row. split; [|done].
        rewrite Hother, Hsc, Hq; [apply lookup_insert_eq|].
        apply Forall_forall. intros q' Hq' Heq. apply Hnot.
        apply Exists_exists. by exists q'.
  - rewrite Hps, Hst. repeat split; try done.
    intros k Hk. inversion Hk as [|? ? Hq Hrest]; subst.
    rewrite Hsc. subst w0. simpl. by rewrite lookup_insert_ne.
Qed.

(** When the scorer fails on an affected passport, the loop stops with the
    exception and the Score of that passport keeps the PROCESSING mark. *)
Lemma rescore_failure_leaves_processing
    (ext : Collaborators) (q : Passport.t) (rest : list Passport.t) (w : World) (e : exn) :
  fst (calculate_score ext q (Passport.community_id q)
         (snd (Score_objects_update_or_create (Passport.pk q) processing_defaults
                 (add_log Log.debug "FIFO scoring selected, rescoring passport='%s'" w))))
  = Raise e ->
  fst (rescore_affected ext (q :: rest) w) = Raise e
  /\ exists row,
       scores (snd (rescore_affected ext (q :: rest) w)) !! Passport.pk q = Some row
       /\ Score.status row = Score.PROCESSING
       /\ Score.score row = None.
Proof.
  simpl. unfold mbind, M_bind. simpl.
  set (w0 := set_scores _ (add_log _ _ w)). intros Hfail.
  destruct (calculate_score_effect ext q (Passport.community_id q) w0) as (_ & _ & Hsc).
  destruct (calculate_score ext q (Passport.community_id q) w0) as [[[]|e'] w1];
    simpl in *; [done|].
  injection Hfail as ->. split; [done|].
  rewrite Hsc. subst w0. simpl. rewrite lookup_insert_eq. by eexists.
Qed.

Lemma rescore_affected_app
    (ext : Collaborators) (earlier later : list Passport.t) (w : World) :
  rescore_affected ext (earlier ++ later) w
  = match rescore_affected ext earlier w with
    | (Ok _, w') => rescore_affected ext later w'
    | (Raise e, w') => (Raise e, w')
    end.
Proof.
  revert w. induction earlier as [|q l IH]; intros w; simpl; [done|].
  unfold mbind, M_bind. simpl.
  destruct (calculate_score ext q (Passport.community_id q) _) as [[[]|e] w1]; [apply IH | done].
Qed.

(** C6, as the code has it.  Under FIFO, [process_deduplication] goes
    through the affected passports in order: when the turn of a passport
    comes, its Score row is marked PROCESSING with a null score (no other
    Score row, no stamp and no passport changes) and [calculate_score] runs
    for it at once, in the world so marked (the score step alone: the Stamp
    and Passport tables stay as the FIFO method left them); when
    [process_deduplication] returns, the Score of every affected passport
    is DONE.  Under LIFO the affected passports are not rescored: the Score
    table is as the LIFO method left it. *)
Theorem fifo_affected_are_rescored
    (ext : Collaborators) (passport : Passport.t) (passport_data : json) (w w1 : World)
    (community : Community.t) (deduplicated : json) (affected : list Passport.t) :
  communities w !! Passport.community_id passport = Some community ->
  (Community.rule community = Rules_FIFO ->
   fifo ext community passport_data (Passport.address passport) (method_logged w)
   = (Ok (deduplicated, affected), w1) ->
   process_deduplication ext passport passport_data w
   = match rescore_affected ext affected (found_logged w1) with
     | (Ok _, w') => (Ok deduplicated, w')
     | (Raise e, w') => (Raise e, w')
     end
   /\ (forall earlier q later wq,
         affected = earlier ++ q :: later ->
         rescore_affected ext earlier (found_logged w1) = (Ok tt, wq) ->
         exists wm row,
           scores wm !! Passport.pk q = Some row
           /\ Score.status row = Score.PROCESSING
           /\ Score.score row = None
           /\ (forall k, k <> Passport.pk q -> scores wm !! k = scores wq !! k)
           /\ stamps wm = stamps wq
           /\ passports wm = passports wq
           /\ process_deduplication ext passport passport_data w
              = match calculate_score ext q (Passport.community_id q) wm with
                | (Ok _, w') =>
                    match rescore_affected ext later w' with
                    | (Ok _, w'') => (Ok deduplicated, w'')
                    | (Raise e, w'') => (Raise e, w'')
                    end
                | (Raise e, w') => (Raise e, w')
                end)
   /\ forall w',
        process_deduplication ext passport passport_data w = (Ok deduplicated, w') ->
        Forall (score_done w') affected
        /\ stamps w' = stamps w1
        /\ passports w' = passports w1)
  /\ (Community.rule community = Rules_LIFO ->
      lifo ext community passport_data (Passport.address passport) (method_logged w)
      = (Ok (deduplicated, affected), w1) ->
      process_deduplication ext passport passport_data w = (Ok deduplicated, found_logged w1)
      /\ scores (found_logged w1) = scores w1).
Proof.
  intros Hcommunity. split.
  - intros Hrule Hfifo.
    assert (Heq : process_deduplication ext passport passport_data w
                  = match rescore_affected ext affected (found_logged w1) with
                    | (Ok _, w') => (Ok deduplicated, w')
                    | (Raise e, w') => (Raise e, w')
                    end).
    { unfold process_deduplication, mbind, M_bind, Community_objects_get.
      rewrite Hcommunity, Hrule. simpl. fold (method_logged w). rewrite Hfifo. simpl.
      fold (found_logged w1).
      by destruct (rescore_affected ext affected (found_logged w1)) as [[[]|e] w']. }
    split; [done|]. split.
    + intros earlier q later wq -> Hearlier.
      rewrite Heq, rescore_affected_app, Hearlier. simpl.
      unfold mbind, M_bind. simpl.
      set (wm := set_scores _ (add_log _ _ wq)).
      exists wm, (processing_defaults (default Score_blank (scores wq !! Passport.pk q))).
      split; [subst wm; simpl; apply lookup_insert_eq|].
      split; [done|]. split; [done|].
      split; [intros k Hk; subst wm; simpl; by rewrite lookup_insert_ne|].
      split; [done|]. split; [done|].
      by destruct (calculate_score ext q (Passport.community_id q) wm) as [[[]|e] w'].
    + intros w' Hret. rewrite Heq in Hret.
      destruct (rescore_affected_effect ext affected (found_logged w1))
        as (Hps & Hst & _ & Hall).
      destruct (rescore_affected ext affected (found_logged w1)) as [[[]|e] w2];
        [|done]. injection Hret as <-. simpl in *.
      split; [|done]. apply Forall_forall. intros q Hq.
      apply (Hall eq_refl (Passport.pk q)). apply Exists_exists. by exists q.
  - intros Hrule Hlifo. split; [|done].
    unfold process_deduplication, mbind, M_bind, Community_objects_get.
    rewrite Hcommunity, Hrule. simpl. fold (method_logged w). by rewrite Hlifo.
Qed.

Lemma fifo_affected_are_rescored_witness :
  (process_deduplication (sample_collaborators one_stamp_data [Passport.mk 2 "0xcd" 7 (Some false)] [])
     (Passport.mk 1 "0xab" 7 (Some false)) one_stamp_data needs_world_fifo
   = match rescore_affected
             (sample_collaborators one_stamp_data [Passport.mk 2 "0xcd" 7 (Some false)] [])
             [Passport.mk 2 "0xcd" 7 (Some false)]
             (found_logged (method_logged needs_world_fifo)) with
     | (Ok _, w') => (Ok one_stamp_data, w')
     | (Raise e, w') => (Raise e, w')
     end
   /\ (exists wm row,
         scores wm !! 2%Z = Some row
         /\ Score.status row = Score.PROCESSING
         /\ Score.score row = None
         /\ (forall k, k <> 2%Z ->
               scores wm !! k = scores (found_logged (method_logged needs_world_fifo)) !! k)
         /\ stamps wm = stamps (found_logged (method_logged needs_world_fifo))
         /\ passports wm = passports (found_logged (method_logged needs_world_fifo))
         /\ process_deduplication
              (sample_collaborators one_stamp_data [Passport.mk 2 "0xcd" 7 (Some false)] [])
              (Passport.mk 1 "0xab" 7 (Some false)) one_stamp_data needs_world_fifo
            = match calculate_score
                      (sample_collaborators one_stamp_data
                         [Passport.mk 2 "0xcd" 7 (Some false)] [])
                      (Passport.mk 2 "0xcd" 7 (Some false)) 7 wm with
              | (Ok _, w') =>
                  match rescore_affected
                          (sample_collaborators one_stamp_data
                             [Passport.mk 2 "0xcd" 7 (Some false)] [])
                          [] w' with
                  | (Ok _, w'') => (Ok one_stamp_data, w'')
                  | (Raise e, w'') => (Raise e, w'')
                  end
              | (Raise e, w') => (Raise e, w')
              end)
   /\ Forall
        (score_done
           (snd (process_deduplication
                   (sample_collaborators one_stamp_data [Passport.mk 2 "0xcd" 7 (Some false)] [])
                   (Passport.mk 1 "0xab" 7 (Some false)) one_stamp_data needs_world_fifo)))
        [Passport.mk 2 "0xcd" 7 (Some false)])
  /\ (process_deduplication (sample_collaborators one_stamp_data [] [])
        (Passport.mk 1 "0xab" 7 (Some false)) one_stamp_data needs_world
      = (Ok one_stamp_data, found_logged (method_logged needs_world))
      /\ scores (found_logged (method_logged needs_world)) = scores (method_logged needs_world)).
Proof.
  split.
  - destruct (proj1 (fifo_affected_are_rescored
                       (sample_collaborators one_stamp_data
                          [Passport.mk 2 "0xcd" 7 (Some false)] [])
                       (Passport.mk 1 "0xab" 7 (Some false)) one_stamp_data
                       needs_world_fifo (method_logged needs_world_fifo)
                       (Community.mk 7 "FIFO") one_stamp_data
                       [Passport.mk 2 "0xcd" 7 (Some false)] eq_refl) eq_refl eq_refl)
      as (Heq & Hmark & Hdone).
    split; [exact Heq|]. split.
    + apply (Hmark [] (Passport.mk 2 "0xcd" 7 (Some false)) []
               (found_logged (method_logged needs_world_fifo))); reflexivity.
    + apply (Hdone (snd (process_deduplication
                           (sample_collaborators one_stamp_data
                              [Passport.mk 2 "0xcd" 7 (Some false)] [])
                           (Passport.mk 1 "0xab" 7 (Some false)) one_stamp_data
                           needs_world_fifo))).
      reflexivity.
  - apply (proj2 (fifo_affected_are_rescored (sample_collaborators one_stamp_data [] [])
                    (Passport.mk 1 "0xab" 7 (Some false)) one_stamp_data
                    needs_world (method_logged needs_world)
                    (Community.mk 7 "LIFO") one_stamp_data [] eq_refl));
      reflexivity.
Defined.

(** C6, as the claim states it, fails: the community deduplicates FIFO,
    passport 2 is affected and the scorer fails on it.  When the run of
    passport 1 is over, the Score of passport 2 is still PROCESSING; the
    exception went to the run of passport 1, whose Score is ERROR. *)
Lemma affected_left_processing :
  scores (snd (score_passport
                 (sample_collaborators one_stamp_data [Passport.mk 2 "0xcd" 7 (Some false)] [2%Z])
                 7 "0xAB" needs_world_fifo)) !! 2%Z
  = Some (Score.mk None Score.PROCESSING None None None)
  /\ scores (snd (score_passport
                    (sample_collaborators one_stamp_data [Passport.mk 2 "0xcd" 7 (Some false)] [2%Z])
                    7 "0xAB" needs_world_fifo)) !! 1%Z
     = Some (Score.mk None Score.ERROR None None (Some "scorer unavailable")).
Proof. split; reflexivity. Qed.

(** * Further properties of the pipeline *)

(** ** The claim, call after call *)

Lemma lookup_map {A B} (f : A -> B) (l : list A) (i : nat) :
  map f l !! i = f <$> (l !! i).
Proof.
  revert i. induction l as [|x l IH]; intros [|i]; simpl; try done.
Qed.

Lemma filter_single_true {A} (f : A -> bool) (l : list A) (x : A) :
  List.filter f l = [x] -> f x = true.
Proof.
  intros Hrow. assert (Hin : In x (List.filter f l)) by (rewrite Hrow; by left).
  by apply filter_In in Hin as [_ ?].
Qed.

Lemma passport_matches_new (address : string) (community_id pk : Z) (rc : option bool) :
  passport_matches address community_id (Passport.mk pk address community_id rc) = true.
Proof. unfold passport_matches. simpl. by rewrite String.eqb_refl, Z.eqb_refl. Qed.

(** The one row of the key is due: the call marks it and returns it as
    marked. *)
Lemma load_passport_record_due (community_id : Z) (address : string) (w : World) (p : Passport.t) :
  List.filter (passport_matches (lower address) community_id) (passports w) = [p] ->
  not_false p = true ->
  load_passport_record community_id address w
  = (Ok (Some (mark_calculated p)),
     set_passports
       (map (fun q => if claimable (lower address) community_id q then mark_calculated q else q)
            (passports w))
       (next_passport_pk w) w)
  /\ List.filter (passport_matches (lower address) community_id)
       (map (fun q => if claimable (lower address) community_id q then mark_calculated q else q)
            (passports w))
     = [mark_calculated p].
Proof.
  intros Hrow Hdue.
  pose proof (filter_single_true _ _ _ Hrow) as Hmatch.
  assert (Hrow' :
    List.filter (passport_matches (lower address) community_id)
      (map (fun q => if claimable (lower address) community_id q then mark_calculated q else q)
           (passports w))
    = [mark_calculated p]).
  { rewrite filter_map_stable by (intros; apply passport_matches_mark).
    rewrite Hrow. simpl. unfold claimable. by rewrite Hmatch, Hdue. }
  split; [|done].
  unfold load_passport_record, mbind, M_bind, Passport_objects_claim.
  unfold claimable at 1. rewrite filter_andb, Hrow. simpl. rewrite Hdue. simpl.
  unfold Passport_objects_get. simpl. by rewrite Hrow'.
Qed.

(** The one row of the key is not due: the call returns [None] and writes
    nothing. *)
Lemma load_passport_record_not_due
    (community_id : Z) (address : string) (w : World) (p : Passport.t) :
  List.filter (passport_matches (lower address) community_id) (passports w) = [p] ->
  Passport.requires_calculation p = Some false ->
  load_passport_record community_id address w = (Ok None, w).
Proof.
  intros Hrow Hfalse.
  assert (Hclaim : Passport_objects_claim (lower address) community_id w = (Ok 0%nat, w)).
  { apply Passport_objects_claim_none. unfold claimable.
    rewrite filter_andb, Hrow. simpl. unfold not_false. by rewrite Hfalse. }
  unfold load_passport_record, mbind, M_bind. rewrite Hclaim. simpl.
  assert (Hex : existsb (passport_matches (lower address) community_id) (passports w) = true).
  { apply filter_nonempty_existsb. by rewrite Hrow. }
  by rewrite Hex.
Qed.

(** No row under the key of a community that exists: the call inserts one
    and returns it. *)
Lemma load_passport_record_missing
    (community_id : Z) (address : string) (w : World) (community : Community.t) :
  communities w !! community_id = Some community ->
  List.filter (passport_matches (lower address) community_id) (passports w) = [] ->
  load_passport_record community_id address w
  = (Ok (Some (Passport.mk (next_passport_pk w) (lower address) community_id
                 Passport_requires_calculation_default)),
     set_passports
       (passports w ++ [Passport.mk (next_passport_pk w) (lower address) community_id
                          Passport_requires_calculation_default])
       (next_passport_pk w + 1) w).
Proof.
  intros Hcommunity Hnone.
  assert (Hclaim : Passport_objects_claim (lower address) community_id w = (Ok 0%nat, w)).
  { apply Passport_objects_claim_none. unfold claimable. by rewrite filter_andb, Hnone. }
  unfold load_passport_record, mbind, M_bind. rewrite Hclaim. simpl.
  rewrite (existsb_filter_nil _ _ Hnone). simpl.
  unfold Passport_objects_update_or_create. by rewrite Hnone, Hcommunity.
Qed.

(** X1. A claim is consumed by the call that wins it: when the key has one
    row and the row is due, [load_passport_record] returns the row with
    [requires_calculation] already False, and the call that follows
    returns [None] and changes nothing. *)
Theorem claim_is_consumed (community_id : Z) (address : string) (w : World) (p : Passport.t) :
  List.filter (passport_matches (lower address) community_id) (passports w) = [p] ->
  not_false p = true ->
  exists w1,
    load_passport_record community_id address w = (Ok (Some (mark_calculated p)), w1)
    /\ Passport.requires_calculation (mark_calculated p) = Some false
    /\ load_passport_record community_id address w1 = (Ok None, w1).
Proof.
  intros Hrow Hdue.
  destruct (load_passport_record_due community_id address w p Hrow Hdue) as [Hload Hrow'].
  eexists. split; [exact Hload|]. split; [done|].
  by apply (load_passport_record_not_due community_id address _ (mark_calculated p)).
Qed.

Lemma claim_is_consumed_witness :
  exists w1,
    load_passport_record 7 "0xAB" needs_world
    = (Ok (Some (mark_calculated (Passport.mk 1 "0xab" 7 (Some true)))), w1)
    /\ Passport.requires_calculation (mark_calculated (Passport.mk 1 "0xab" 7 (Some true)))
       = Some false
    /\ load_passport_record 7 "0xAB" w1 = (Ok None, w1).
Proof.
  apply (claim_is_consumed 7 "0xAB" needs_world (Passport.mk 1 "0xab" 7 (Some true)));
    reflexivity.
Defined.

(** What [load_passport_record] leaves in the Passport table: the rows it
    found, those of the key marked, and at most one new row of the key. *)
Lemma load_passport_record_passports (community_id : Z) (address : string) (w : World) :
  exists created,
    passports (snd (load_passport_record community_id address w))
    = map (fun q => if claimable (lower address) community_id q then mark_calculated q else q)
          (passports w) ++ created
    /\ (length created <= 1)%nat
    /\ Forall (fun q => passport_matches (lower address) community_id q = true) created.
Proof.
  unfold load_passport_record, mbind, M_bind. simpl.
  destruct (_ =? _)%nat; simpl.
  - exists []. rewrite app_nil_r. unfold Passport_objects_get. simpl.
    destruct (List.filter _ _) as [|p [|q l]]; simpl; repeat split; auto.
  - destruct (existsb _ _); simpl.
    + exists []. rewrite app_nil_r. repeat split; auto.
    + unfold Passport_objects_update_or_create. simpl.
      destruct (List.filter _ _) as [|p [|q l]]; simpl.
      * destruct (communities w !! community_id); simpl.
        -- eexists [_]. repeat split; auto. repeat constructor. apply passport_matches_new.
        -- exists []. rewrite app_nil_r. repeat split; auto.
      * exists []. rewrite app_nil_r. repeat split; auto.
      * exists []. rewrite app_nil_r. repeat split; auto.
Qed.

(** X2. [load_passport_record] never deletes or re-keys a row: every row
    stays at its place with its primary key, address and community, a row
    of another key stays exactly as it was, and at most one row is added. *)
Theorem load_passport_record_keeps_rows
    (community_id : Z) (address : string) (w : World) (i : nat) (p : Passport.t) :
  passports w !! i = Some p ->
  (exists p',
      passports (snd (load_passport_record community_id address w)) !! i = Some p'
      /\ Passport.pk p' = Passport.pk p
      /\ Passport.address p' = Passport.address p
      /\ Passport.community_id p' = Passport.community_id p)
  /\ (passport_matches (lower address) community_id p = false ->
      passports (snd (load_passport_record community_id address w)) !! i = Some p)
  /\ (length (passports (snd (load_passport_record community_id address w)))
      <= S (length (passports w)))%nat.
Proof.
  intros Hi.
  destruct (load_passport_record_passports community_id address w) as (created & -> & Hlen & _).
  assert (Hat : forall f : Passport.t -> Passport.t,
            (map f (passports w) ++ created) !! i = Some (f p)).
  { intros f. rewrite lookup_app_l by (rewrite length_map; by eapply lookup_lt_Some).
    by rewrite lookup_map, Hi. }
  split; [|split].
  - eexists. split; [apply Hat|]. by destruct (claimable _ _ p).
  - intros Hother. rewrite Hat. unfold claimable. by rewrite Hother.
  - rewrite length_app, length_map. lia.
Qed.

Lemma load_passport_record_keeps_rows_witness :
  (exists p',
      passports (snd (load_passport_record 7 "0xAB" needs_world)) !! 1%nat = Some p'
      /\ Passport.pk p' = 2%Z
      /\ Passport.address p' = "0xcd"
      /\ Passport.community_id p' = 7%Z)
  /\ passports (snd (load_passport_record 7 "0xAB" needs_world)) !! 1%nat
     = Some (Passport.mk 2 "0xcd" 7 (Some false))
  /\ (length (passports (snd (load_passport_record 7 "0xAB" needs_world)))
      <= S (length (passports needs_world)))%nat.
Proof.
  destruct (load_passport_record_keeps_rows 7 "0xAB" needs_world 1
              (Passport.mk 2 "0xcd" 7 (Some false)) eq_refl) as (Hkey & Hother & Hlen).
  split; [exact Hkey|]. split; [|exact Hlen]. apply Hother. reflexivity.
Defined.

(** X3. A passport that [load_passport_record] had to create (no row
    under the key, in a community that exists) is handed out twice: to the
    call that creates it, and, its [requires_calculation] being left
    unset, to the next call as well; only the third call returns [None]. *)
Theorem created_passport_is_claimed_again
    (community_id : Z) (address : string) (w : World) (community : Community.t) :
  communities w !! community_id = Some community ->
  List.filter (passport_matches (lower address) community_id) (passports w) = [] ->
  exists p w1 w2,
    load_passport_record community_id address w = (Ok (Some p), w1)
    /\ Passport.requires_calculation p = None
    /\ load_passport_record community_id address w1 = (Ok (Some (mark_calculated p)), w2)
    /\ load_passport_record community_id address w2 = (Ok None, w2).
Proof.
  intros Hcommunity Hnone.
  pose proof (load_passport_record_missing community_id address w community Hcommunity Hnone)
    as Hfirst.
  set (p := Passport.mk (next_passport_pk w) (lower address) community_id
                        Passport_requires_calculation_default) in *.
  set (w1 := set_passports (passports w ++ [p]) (next_passport_pk w + 1) w) in *.
  assert (Hrow : List.filter (passport_matches (lower address) community_id) (passports w1)
                 = [p]).
  { subst w1. simpl. rewrite List.filter_app, Hnone. simpl.
    subst p. by rewrite passport_matches_new. }
  destruct (load_passport_record_due community_id address w1 p Hrow eq_refl)
    as [Hsecond Hrow2].
  exists p, w1. eexists. split; [exact Hfirst|]. split; [done|].
  split; [exact Hsecond|].
  by apply (load_passport_record_not_due community_id address _ (mark_calculated p)).
Qed.

Lemma created_passport_is_claimed_again_witness :
  exists p w1 w2,
    load_passport_record 7 "0xAB" empty_world = (Ok (Some p), w1)
    /\ Passport.requires_calculation p = None
    /\ load_passport_record 7 "0xAB" w1 = (Ok (Some (mark_calculated p)), w2)
    /\ load_passport_record 7 "0xAB" w2 = (Ok None, w2).
Proof.
  apply (created_passport_is_claimed_again 7 "0xAB" empty_world (Community.mk 7 "LIFO"));
    reflexivity.
Defined.

Lemma ascii_lower_idempotent (c : ascii) : ascii_lower (ascii_lower c) = ascii_lower c.
Proof. destruct c as [[] [] [] [] [] [] [] []]; reflexivity. Qed.

Lemma lower_idempotent (s : string) : lower (lower s) = lower s.
Proof.
  induction s as [|c s IH]; simpl; [done|]. by rewrite ascii_lower_idempotent, IH.
Qed.

(** X4. The claim does not see the case of the address: two addresses
    with the same lower-case form claim the same row, and an address
    claims what its lower-case form claims. *)
Theorem claim_ignores_case (community_id : Z) (address address' : string) (w : World) :
  lower address = lower address' ->
  load_passport_record community_id address w = load_passport_record community_id address' w
  /\ load_passport_record community_id (lower address) w
     = load_passport_record community_id address w.
Proof.
  intros Hsame. unfold load_passport_record. by rewrite lower_idempotent, Hsame.
Qed.

Lemma claim_ignores_case_witness :
  load_passport_record 7 "0xAB" needs_world = load_passport_record 7 "0Xab" needs_world
  /\ load_passport_record 7 (lower "0xAB") needs_world
     = load_passport_record 7 "0xAB" needs_world.
Proof. apply (claim_ignores_case 7 "0xAB" "0Xab" needs_world). reflexivity. Defined.

(** X5. Two workers that call for a key without a row, in a community
    that exists, can both be handed the passport: when both have looked
    before either has created, the first creates the row, the second finds
    it, and both return it. *)
Theorem creation_race_two_owners
    (community_id : Z) (address address' : string) (w : World) (community : Community.t) :
  communities w !! community_id = Some community ->
  lower address = lower address' ->
  List.filter (passport_matches (lower address) community_id) (passports w) = [] ->
  exists p w',
    rtc workers_step
      ([mkCall community_id address AtClaim; mkCall community_id address' AtClaim], w)
      ([mkCall community_id address (Returned (Ok (Some p)));
        mkCall community_id address' (Returned (Ok (Some p)))], w')
    /\ passports w' = passports w ++ [p].
Proof.
  intros Hcommunity Hsame Hnone.
  assert (Hclaim : Passport_objects_claim (lower address) community_id w = (Ok 0%nat, w)).
  { apply Passport_objects_claim_none. unfold claimable. by rewrite filter_andb, Hnone. }
  pose proof (existsb_filter_nil _ _ Hnone) as Hex.
  set (p := Passport.mk (next_passport_pk w) (lower address) community_id
                        Passport_requires_calculation_default).
  set (w' := set_passports (passports w ++ [p]) (next_passport_pk w + 1) w).
  exists p, w'. split; [|done].
  assert (Hstep1 : forall a, lower a = lower address ->
            call_step community_id a AtClaim w = Some (AtExists, w)).
  { intros a Ha. unfold call_step. by rewrite Ha, Hclaim. }
  assert (Hstep2 : forall a, lower a = lower address ->
            call_step community_id a AtExists w = Some (AtCreate, w)).
  { intros a Ha. unfold call_step, Passport_objects_exists, gets. by rewrite Ha, Hex. }
  assert (Hstep3 : call_step community_id address AtCreate w
                   = Some (Returned (Ok (Some p)), w')).
  { unfold call_step, Passport_objects_update_or_create. by rewrite Hnone, Hcommunity. }
  assert (Hstep4 : call_step community_id address' AtCreate w'
                   = Some (Returned (Ok (Some p)), w')).
  { unfold call_step, Passport_objects_update_or_create. rewrite <- Hsame.
    assert (Hrow : List.filter (passport_matches (lower address) community_id) (passports w')
                   = [p]).
    { subst w'. simpl. rewrite List.filter_app, Hnone. simpl.
      subst p. by rewrite passport_matches_new. }
    by rewrite Hrow. }
  eapply rtc_l.
  { by apply (workers_step_at 0 (mkCall community_id address AtClaim) AtExists _ w w);
      [|apply Hstep1]. }
  eapply rtc_l.
  { by apply (workers_step_at 1 (mkCall community_id address' AtClaim) AtExists _ w w);
      [|apply Hstep1]. }
  eapply rtc_l.
  { by apply (workers_step_at 0 (mkCall community_id address AtExists) AtCreate _ w w);
      [|apply Hstep2]. }
  eapply rtc_l.
  { by apply (workers_step_at 1 (mkCall community_id address' AtExists) AtCreate _ w w);
      [|apply Hstep2]. }
  eapply rtc_l.
  { by apply (workers_step_at 0 (mkCall community_id address AtCreate)
                (Returned (Ok (Some p))) _ w w'). }
  eapply rtc_l; [|apply rtc_refl].
  by apply (workers_step_at 1 (mkCall community_id address' AtCreate)
              (Returned (Ok (Some p)))
              [mkCall community_id address (Returned (Ok (Some p)));
               mkCall community_id address' AtCreate] w' w').
Qed.

Lemma creation_race_two_owners_witness :
  exists p w',
    rtc workers_step
      ([mkCall 7 "0xAB" AtClaim; mkCall 7 "0xab" AtClaim], empty_world)
      ([mkCall 7 "0xAB" (Returned (Ok (Some p))); mkCall 7 "0xab" (Returned (Ok (Some p)))], w')
    /\ passports w' = passports empty_world ++ [p].
Proof.
  apply (creation_race_two_owners 7 "0xAB" "0xab" empty_world (Community.mk 7 "LIFO"));
    reflexivity.
Defined.

(** ** The fetch *)

(** X6. [load_passport_data] takes exactly the falsy answers of the reader
    (None, False, 0, the empty string, list and dict) for no data and
    raises NoPassportException on them; any other answer, a passport with
    an empty list of stamps included, is returned as it is.  Either way
    nothing is written. *)
Theorem no_data_exactly_when_falsy
    (ext : Collaborators) (address : string) (w : World) (passport_data : json) :
  get_passport ext address = Ok passport_data ->
  (no_data passport_data ->
   load_passport_data ext address w = (Raise (NoPassportException ext), w))
  /\ (~ no_data passport_data ->
      load_passport_data ext address w = (Ok passport_data, w)).
Proof.
  intros Hget. unfold load_passport_data, mbind, M_bind, lift. rewrite Hget. split.
  - intros [->|[->|[->|[->|[->| ->]]]]]; reflexivity.
  - intros Hdata.
    assert (Htruthy : py_truthy passport_data = true); [|by rewrite Htruthy].
    unfold no_data in Hdata.
    destruct passport_data as [|[]|n|s|[|x l]|[|kv l]]; simpl; try done;
      try (destruct Hdata; auto 10; fail).
    + destruct (Z.eqb_spec n 0) as [->|]; [destruct Hdata; auto 10 | done].
    + destruct (String.eqb_spec s "") as [->|]; [destruct Hdata; auto 10 | done].
Qed.

Lemma no_data_exactly_when_falsy_witness :
  load_passport_data (sample_collaborators (JDict []) [] []) "0xAB" empty_world
  = (Raise (APIException "No Passport found for this address."), empty_world)
  /\ load_passport_data (sample_collaborators (JDict [("stamps", JList [])]) [] []) "0xAB"
       empty_world
     = (Ok (JDict [("stamps", JList [])]), empty_world).
Proof.
  split.
  - apply (proj1 (no_data_exactly_when_falsy (sample_collaborators (JDict []) [] []) "0xAB"
                    empty_world (JDict []) eq_refl)).
    unfold no_data. auto 10.
  - apply (proj2 (no_data_exactly_when_falsy
                    (sample_collaborators (JDict [("stamps", JList [])]) [] []) "0xAB"
                    empty_world (JDict [("stamps", JList [])]) eq_refl)).
    unfold no_data. intros [H|[H|[H|[H|[H|H]]]]]; discriminate.
Defined.

(** ** The score *)

(** X7. When the community exists, its scorer is found and returns at
    least one result, [calculate_score] replaces the Score row of the
    passport by a DONE row: the score of the first result, the UTC time it
    read, the first evidence entry or null, and a null error, whatever the
    row held before (an earlier error is cleared, further results are
    ignored).  No other Score row, no stamp and no passport is touched. *)
Theorem calculate_score_writes_done_row
    (ext : Collaborators) (passport : Passport.t) (community_id : Z) (w : World)
    (community : Community.t) (scorer : Scorer) (sd : ScoreData) (others : list ScoreData) :
  communities w !! community_id = Some community ->
  get_scorer ext community = Ok scorer ->
  compute_score scorer (add_log Log.debug "Scoring" w) [Passport.pk passport]
  = Ok (sd :: others) ->
  exists w',
    calculate_score ext passport community_id w = (Ok tt, w')
    /\ scores w'
       = <[Passport.pk passport :=
             Score.mk (Some (sd_score sd)) Score.DONE (Some (utc_now ext (clock_reads w)))
                      (first_evidence sd) None]> (scores w)
    /\ stamps w' = stamps w
    /\ passports w' = passports w
    /\ clock_reads w' = S (clock_reads w).
Proof.
  intros Hcommunity Hscorer Hscores.
  unfold calculate_score, mbind, M_bind, lift, Community_objects_get. simpl.
  rewrite Hcommunity. simpl. rewrite Hscorer. simpl.
  fold (add_log Log.debug "Scoring" w). rewrite Hscores. simpl.
  eexists. split; [reflexivity|]. simpl. done.
Qed.

Lemma calculate_score_writes_done_row_witness :
  exists w',
    calculate_score (sample_collaborators JNull [] []) (Passport.mk 1 "0xab" 7 (Some false)) 7
      needs_world = (Ok tt, w')
    /\ scores w'
       = <[1%Z := Score.mk (Some 5%Z) Score.DONE (Some 1000%Z) None None]> (scores needs_world)
    /\ stamps w' = stamps needs_world
    /\ passports w' = passports needs_world
    /\ clock_reads w' = 1%nat.
Proof.
  apply (calculate_score_writes_done_row (sample_collaborators JNull [] [])
           (Passport.mk 1 "0xab" 7 (Some false)) 7 needs_world (Community.mk 7 "LIFO")
           (sample_scorer []) (mkScoreData 5 []) []); reflexivity.
Defined.

(** X8. [calculate_score] fails for one of four reasons: the community
    is missing (DoesNotExist), [get_scorer] raises, [compute_score]
    raises, or it returns no result (IndexError).  A call that fails has
    written no Score row, no stamp and no passport and has not read the
    clock. *)
Theorem calculate_score_failure_causes
    (ext : Collaborators) (passport : Passport.t) (community_id : Z) (w : World) (e : exn) :
  fst (calculate_score ext passport community_id w) = Raise e ->
  ((communities w !! community_id = None
    /\ e = PyException DoesNotExist "Community matching query does not exist.")
   \/ exists community,
        communities w !! community_id = Some community
        /\ (get_scorer ext community = Raise e
            \/ exists scorer,
                 get_scorer ext community = Ok scorer
                 /\ (compute_score scorer (add_log Log.debug "Scoring" w)
                       [Passport.pk passport] = Raise e
                     \/ (compute_score scorer (add_log Log.debug "Scoring" w)
                           [Passport.pk passport] = Ok []
                         /\ e = PyException IndexError "list index out of range"))))
  /\ scores (snd (calculate_score ext passport community_id w)) = scores w
  /\ stamps (snd (calculate_score ext passport community_id w)) = stamps w
  /\ passports (snd (calculate_score ext passport community_id w)) = passports w
  /\ clock_reads (snd (calculate_score ext passport community_id w)) = clock_reads w.
Proof.
  unfold calculate_score, mbind, M_bind, lift, Community_objects_get. simpl.
  destruct (communities w !! community_id) as [community|]; simpl.
  - destruct (get_scorer ext community) as [scorer|e'] eqn:Hscorer; simpl.
    + fold (add_log Log.debug "Scoring" w).
      destruct (compute_score scorer _ _) as [[|sd l]|e'] eqn:Hscores; simpl;
        intros He; try done; injection He as <-; (split; [|done]); right;
        exists community; (split; [done|]); right; exists scorer; (split; [done|]); auto.
    + intros He. injection He as <-. split; [|done]. right. exists community. auto.
  - intros He. injection He as <-. split; [|done]. by left.
Qed.

Lemma calculate_score_failure_causes_witness :
  ((communities needs_world !! 9%Z = None
    /\ PyException DoesNotExist "Community matching query does not exist."
       = PyException DoesNotExist "Community matching query does not exist.")
   \/ exists community,
        communities needs_world !! 9%Z = Some community
        /\ (get_scorer (sample_collaborators JNull [] []) community
            = Raise (PyException DoesNotExist "Community matching query does not exist.")
            \/ exists scorer,
                 get_scorer (sample_collaborators JNull [] []) community = Ok scorer
                 /\ (compute_score scorer (add_log Log.debug "Scoring" needs_world) [1%Z]
                     = Raise (PyException DoesNotExist "Community matching query does not exist.")
                     \/ (compute_score scorer (add_log Log.debug "Scoring" needs_world) [1%Z]
                         = Ok []
                         /\ PyException DoesNotExist "Community matching query does not exist."
                            = PyException IndexError "list index out of range"))))
  /\ scores (snd (calculate_score (sample_collaborators JNull [] [])
                    (Passport.mk 1 "0xab" 7 (Some false)) 9 needs_world))
     = scores needs_world
  /\ stamps (snd (calculate_score (sample_collaborators JNull [] [])
                    (Passport.mk 1 "0xab" 7 (Some false)) 9 needs_world))
     = stamps needs_world
  /\ passports (snd (calculate_score (sample_collaborators JNull [] [])
                       (Passport.mk 1 "0xab" 7 (Some false)) 9 needs_world))
     = passports needs_world
  /\ clock_reads (snd (calculate_score (sample_collaborators JNull [] [])
                         (Passport.mk 1 "0xab" 7 (Some false)) 9 needs_world))
     = clock_reads needs_world.
Proof.
  apply (calculate_score_failure_causes (sample_collaborators JNull [] [])
           (Passport.mk 1 "0xab" 7 (Some false)) 9 needs_world
           (PyException DoesNotExist "Community matching query does not exist.")).
  reflexivity.
Defined.

(** ** The choice of the deduplication method *)

(** X9. A community whose rule is neither FIFO nor LIFO stops
    [process_deduplication] with the exception "Invalid rule", and a
    missing community stops it with DoesNotExist: in both cases neither
    method has run, no passport is rescored, and nothing but a debug line
    has been added to the world. *)
Theorem unknown_rule_is_fatal
    (ext : Collaborators) (passport : Passport.t) (passport_data : json) (w : World) :
  (forall community,
     communities w !! Passport.community_id passport = Some community ->
     Community.rule community <> Rules_FIFO ->
     Community.rule community <> Rules_LIFO ->
     process_deduplication ext passport passport_data w
     = (Raise (PyException OtherException "Invalid rule"), method_logged w))
  /\ (communities w !! Passport.community_id passport = None ->
      process_deduplication ext passport passport_data w
      = (Raise (PyException DoesNotExist "Community matching query does not exist."), w)).
Proof.
  split.
  - intros community Hcommunity Hfifo Hlifo.
    unfold process_deduplication, mbind, M_bind, Community_objects_get, rule_map.
    rewrite Hcommunity. simpl.
    apply String.eqb_neq in Hfifo, Hlifo. by rewrite Hfifo, Hlifo.
  - intros Hmissing.
    unfold process_deduplication, mbind, M_bind, Community_objects_get.
    by rewrite Hmissing.
Qed.

Lemma unknown_rule_is_fatal_witness :
  process_deduplication (sample_collaborators one_stamp_data [] [])
    (Passport.mk 1 "0xab" 7 (Some false)) one_stamp_data odd_rule_world
  = (Raise (PyException OtherException "Invalid rule"), method_logged odd_rule_world)
  /\ process_deduplication (sample_collaborators one_stamp_data [] [])
       (Passport.mk 1 "0xab" 9 (Some false)) one_stamp_data odd_rule_world
     = (Raise (PyException DoesNotExist "Community matching query does not exist."),
        odd_rule_world).
Proof.
  split.
  - apply (proj1 (unknown_rule_is_fatal (sample_collaborators one_stamp_data [] [])
                    (Passport.mk 1 "0xab" 7 (Some false)) one_stamp_data odd_rule_world)
             (Community.mk 7 "RANDOM")); [reflexivity | discriminate | discriminate].
  - apply (proj2 (unknown_rule_is_fatal (sample_collaborators one_stamp_data [] [])
                    (Passport.mk 1 "0xab" 9 (Some false)) one_stamp_data odd_rule_world)).
    reflexivity.
Defined.

(** ** The task as a whole *)

Lemma handle_exception_returns (passport : option Passport.t) (e : exn) (w : World) :
  fst (handle_exception passport e w) = Ok tt.
Proof. by destruct e, passport. Qed.

(** X10. [score_passport] never lets an exception out: whatever the
    database holds and whatever the collaborators do or raise, the task
    returns normally. *)
Theorem score_passport_never_raises
    (ext : Collaborators) (community_id : Z) (address : string) (w : World) :
  fst (score_passport ext community_id address w) = Ok tt.
Proof.
  rewrite score_passport_unfold.
  destruct (load_passport_record community_id address (request_logged w))
    as [[[passport|]|e] w1]; [| done | apply handle_exception_returns].
  destruct (score_claimed ext passport community_id address w1) as [[[]|e] w2];
    [done | apply handle_exception_returns].
Qed.

(** A [calculate_score] that returned has left a DONE row with a score
    and its time and with no error. *)
Lemma calculate_score_row
    (ext : Collaborators) (passport : Passport.t) (community_id : Z) (w w' : World) :
  calculate_score ext passport community_id w = (Ok tt, w') ->
  exists score now evidence,
    scores w' !! Passport.pk passport
    = Some (Score.mk (Some score) Score.DONE (Some now) evidence None).
Proof.
  unfold calculate_score, mbind, M_bind, lift, Community_objects_get. simpl.
  destruct (communities w !! community_id) as [community|]; simpl; [|done].
  destruct (get_scorer ext community) as [scorer|e]; simpl; [|done].
  destruct (compute_score scorer _ _) as [[|sd l]|e]; simpl; try done.
  intros Hret. injection Hret as <-. simpl.
  do 3 eexists. apply lookup_insert_eq.
Qed.

(** The claimed steps end with [calculate_score]. *)
Lemma score_claimed_ends_with_score
    (ext : Collaborators) (passport : Passport.t) (community_id : Z) (address : string)
    (w1 w2 : World) :
  score_claimed ext passport community_id address w1 = (Ok tt, w2) ->
  exists w', calculate_score ext passport community_id w' = (Ok tt, w2).
Proof.
  unfold score_claimed. unfold mbind at 1 2 3, M_bind at 1 2 3.
  destruct (remove_existing_stamps_from_db passport w1) as [[[]|e] wa]; [|done].
  destruct (load_passport_data ext address wa) as [[passport_data|e] wb]; [|done].
  destruct (validate_and_save_stamps ext passport passport_data wb) as [[[]|e] wc]; [|done].
  intros Hret. by exists wc.
Qed.

(** X11. A run that claimed a passport always leaves it a Score row that
    tells how the run ended: DONE with a score, its time and no error, or
    ERROR with the error text and no score, time or evidence; never no
    row, and never a PROCESSING row. *)
Theorem claimed_run_ends_done_or_error
    (ext : Collaborators) (community_id : Z) (address : string)
    (w w1 : World) (passport : Passport.t) :
  load_passport_record community_id address (request_logged w) = (Ok (Some passport), w1) ->
  exists row,
    scores (snd (score_passport ext community_id address w)) !! Passport.pk passport = Some row
    /\ terminal_score row.
Proof.
  intros Hload.
  destruct (score_claimed ext passport community_id address w1) as [[[]|e] w2] eqn:Hrun.
  - destruct (score_claimed_ends_with_score _ _ _ _ _ _ Hrun) as [w' Hscore].
    destruct (calculate_score_row _ _ _ _ _ Hscore) as (score & now & evidence & Hrow).
    rewrite score_passport_unfold, Hload, Hrun. simpl.
    eexists. split; [exact Hrow|]. left. simpl. by repeat split.
  - destruct (score_passport_claimed_failure ext _ _ _ _ _ _ _ Hload Hrun) as [msg ->].
    simpl. eexists. split; [apply lookup_insert_eq|]. right. simpl. by repeat split.
Qed.

Lemma claimed_run_ends_done_or_error_witness :
  exists row,
    scores (snd (score_passport (sample_collaborators one_stamp_data [] []) 7 "0xAB"
                   needs_world)) !! 1%Z = Some row
    /\ terminal_score row.
Proof.
  apply (claimed_run_ends_done_or_error (sample_collaborators one_stamp_data [] []) 7 "0xAB"
           needs_world
           (set_passports
              [Passport.mk 1 "0xab" 7 (Some false); Passport.mk 2 "0xcd" 7 (Some false)] 3
              (request_logged needs_world))
           (Passport.mk 1 "0xab" 7 (Some false))).
  reflexivity.
Defined.

(** ** The loop over the credentials *)

Lemma Stamp_objects_update_or_create_raise
    (hash : json) (passport_id : Z) (provider credential : json) (w w' : World) (e : exn) :
  Stamp_objects_update_or_create hash passport_id provider credential w = (Raise e, w') ->
  w' = w.
Proof.
  unfold Stamp_objects_update_or_create.
  destruct (List.filter _ _) as [|old [|more l]]; intros Hret; try done.
  by injection Hret as _ <-.
Qed.

(** X12. The loop stops at the first credential whose round raises,
    whatever the reason (a missing key, a value of the wrong type, the
    verifier, the issuer check, the parser, the upsert): the round that
    raised has written no stamp, the exception is the loop's, and the
    credentials after it are not looked at. *)
Theorem loop_stops_at_first_exception
    (ext : Collaborators) (passport : Passport.t) (did : string)
    (before rest : list json) (stamp : json) (w0 w w' : World) (e : exn) :
  validate_stamps ext passport did before w0 = (Ok tt, w) ->
  validate_stamp ext passport did stamp w = (Raise e, w') ->
  validate_stamps ext passport did (before ++ stamp :: rest) w0 = (Raise e, w')
  /\ stamps w' = stamps w.
Proof.
  intros Hbefore Hraise. split.
  - rewrite validate_stamps_app, Hbefore. simpl. unfold mbind, M_bind. by rewrite Hraise.
  - destruct (validate_stamp_writes ext passport did stamp w)
      as [Hsame|(hash & provider & credential & wa & Hsame & Hsave)].
    + by rewrite Hraise in Hsame.
    + rewrite Hraise in Hsave. symmetry in Hsave.
      apply Stamp_objects_update_or_create_raise in Hsave. by subst.
Qed.

Lemma loop_stops_at_first_exception_witness :
  validate_stamps (sample_collaborators JNull [] []) (Passport.mk 1 "0xab" 7 (Some false))
    "did:pkh:eip155:1:0xab"
    ([sample_stamp "Twitter" "h2" "2030-01-01T00:00:00Z"]
       ++ JDict [("provider", JStr "Ens")]
       :: [sample_stamp "Google" "h3" "2030-01-01T00:00:00Z"])
    empty_world
  = (Raise (PyException KeyError "'credential'"),
     snd (validate_stamps (sample_collaborators JNull [] [])
            (Passport.mk 1 "0xab" 7 (Some false)) "did:pkh:eip155:1:0xab"
            [sample_stamp "Twitter" "h2" "2030-01-01T00:00:00Z"] empty_world))
  /\ length (stamps (snd (validate_stamps (sample_collaborators JNull [] [])
                            (Passport.mk 1 "0xab" 7 (Some false)) "did:pkh:eip155:1:0xab"
                            [sample_stamp "Twitter" "h2" "2030-01-01T00:00:00Z"] empty_world)))
     = 1%nat.
Proof.
  destruct (loop_stops_at_first_exception (sample_collaborators JNull [] [])
              (Passport.mk 1 "0xab" 7 (Some false)) "did:pkh:eip155:1:0xab"
              [sample_stamp "Twitter" "h2" "2030-01-01T00:00:00Z"]
              [sample_stamp "Google" "h3" "2030-01-01T00:00:00Z"]
              (JDict [("provider", JStr "Ens")]) empty_world
              (snd (validate_stamps (sample_collaborators JNull [] [])
                      (Passport.mk 1 "0xab" 7 (Some false)) "did:pkh:eip155:1:0xab"
                      [sample_stamp "Twitter" "h2" "2030-01-01T00:00:00Z"] empty_world))
              (snd (validate_stamps (sample_collaborators JNull [] [])
                      (Passport.mk 1 "0xab" 7 (Some false)) "did:pkh:eip155:1:0xab"
                      [sample_stamp "Twitter" "h2" "2030-01-01T00:00:00Z"] empty_world))
              (PyException KeyError "'credential'") eq_refl eq_refl) as [Hloop _].
  split; [exact Hloop | reflexivity].
Defined.

(** X13. The hash and the provider of a credential are read only once it
    has passed the three checks: a credential that is rejected may lack
    them and is still only logged, while one that passes and lacks its
    credentialSubject, its hash or its provider stops the loop with the
    KeyError of the subscript, after the clock was read and before any
    stamp is written. *)
Theorem hash_read_only_when_accepted
    (ext : Collaborators) (passport : Passport.t) (did : string)
    (stamp credential : json) (errors : list string) (expiration : Z) (issuer : bool)
    (w : World) :
  py_getitem stamp "credential" = Ok credential ->
  validate_credential ext did credential = Ok errors ->
  stamp_expiration ext stamp = Ok expiration ->
  verify_issuer ext stamp = Ok issuer ->
  (errors <> [] \/ (expiration < datetime_now ext (clock_reads w))%Z \/ issuer = false ->
   validate_stamp ext passport did stamp w
   = (Ok tt,
      add_log Log.info
        "Stamp not created. Stamp=%s\nReason: errors=%s stamp_is_expired=%s is_issuer_verified=%s"
        (tick w)))
  /\ (errors = [] /\ (datetime_now ext (clock_reads w) <= expiration)%Z /\ issuer = true ->
      forall e,
        (py_getitem credential "credentialSubject" = Raise e
         \/ (exists subject,
               py_getitem credential "credentialSubject" = Ok subject
               /\ py_getitem subject "hash" = Raise e)
         \/ (exists subject hash,
               py_getitem credential "credentialSubject" = Ok subject
               /\ py_getitem subject "hash" = Ok hash
               /\ py_getitem stamp "provider" = Raise e)) ->
        validate_stamp ext passport did stamp w = (Raise e, tick w)).
Proof.
  intros Hcred Herrors Hexp Hissuer.
  unfold validate_stamp, mbind, M_bind, lift.
  rewrite Hcred, Herrors, Hexp, Hissuer. simpl. split.
  - intros [Herr|[Hlate| ->]].
    + by destruct errors.
    + apply Z.ltb_lt in Hlate. rewrite Hlate. simpl. by rewrite andb_false_r.
    + by rewrite andb_false_r.
  - intros (-> & Hle & ->) e Hmissing. apply Z.ltb_ge in Hle. rewrite Hle. simpl.
    destruct Hmissing as [->|[(subject & -> & ->)|(subject & hash & -> & -> & ->)]]; done.
Qed.

Lemma hash_read_only_when_accepted_witness :
  validate_stamp (late_collaborators JNull) (Passport.mk 1 "0xab" 7 (Some false))
    "did:pkh:eip155:1:0xab" bare_expired_stamp empty_world
  = (Ok tt,
     add_log Log.info
       "Stamp not created. Stamp=%s\nReason: errors=%s stamp_is_expired=%s is_issuer_verified=%s"
       (tick empty_world))
  /\ validate_stamp (late_collaborators JNull) (Passport.mk 1 "0xab" 7 (Some false))
       "did:pkh:eip155:1:0xab" bare_valid_stamp empty_world
     = (Raise (PyException KeyError "'credentialSubject'"), tick empty_world).
Proof.
  split.
  - apply (proj1 (hash_read_only_when_accepted (late_collaborators JNull)
                    (Passport.mk 1 "0xab" 7 (Some false)) "did:pkh:eip155:1:0xab"
                    bare_expired_stamp
                    (JDict [("expirationDate", JStr "2023-01-01T00:00:00Z")])
                    [] 1000%Z true empty_world eq_refl eq_refl eq_refl eq_refl)).
    right. left. simpl. lia.
  - apply (proj2 (hash_read_only_when_accepted (late_collaborators JNull)
                    (Passport.mk 1 "0xab" 7 (Some false)) "did:pkh:eip155:1:0xab"
                    bare_valid_stamp
                    (JDict [("expirationDate", JStr "2030-01-01T00:00:00Z")])
                    [] 2000%Z true empty_world eq_refl eq_refl eq_refl eq_refl)).
    + repeat split. simpl. lia.
    + by left.
Defined.

Lemma filter_map_fixed {A} (g : A -> bool) (f : A -> A) (l : list A) :
  (forall x, g x = true -> f x = x) ->
  (forall x, g (f x) = g x) ->
  List.filter g (map f l) = List.filter g l.
Proof.
  intros Hfix Hkeep. induction l as [|x l IH]; simpl; [done|].
  rewrite Hkeep. destruct (g x) eqn:Hg; [rewrite (Hfix x Hg)|]; by rewrite IH.
Qed.

(** An upsert for one passport leaves the rows of the others as they are
    and never shortens the table. *)
Lemma Stamp_objects_update_or_create_other
    (hash : json) (passport_id other : Z) (provider credential : json) (w : World) :
  other <> passport_id ->
  stamps_of other (snd (Stamp_objects_update_or_create hash passport_id provider credential w))
  = stamps_of other w
  /\ (length (stamps w)
      <= length (stamps (snd (Stamp_objects_update_or_create hash passport_id
                                provider credential w))))%nat.
Proof.
  intros Hother. unfold stamps_of, Stamp_objects_update_or_create.
  destruct (List.filter (stamp_matches hash passport_id) (stamps w)) as [|old [|more l]];
    simpl; [| |done].
  - rewrite List.filter_app, length_app. simpl.
    destruct (Z.eqb_spec passport_id other); [congruence|].
    rewrite app_nil_r. split; [done | lia].
  - rewrite length_map. split; [|done].
    apply filter_map_fixed.
    + intros s Hs. destruct (stamp_matches hash passport_id s) eqn:Hm; [|done].
      apply stamp_matches_eq in Hm as [_ Hid]. apply Z.eqb_eq in Hs. congruence.
    + intros s. by destruct (stamp_matches hash passport_id s).
Qed.

(** X14. The loop writes stamps of its own passport only and deletes
    none: whatever the credentials are and however the loop ends, the
    stamps of every other passport are as they were and the Stamp table
    has not become shorter. *)
Theorem loop_keeps_other_stamps
    (ext : Collaborators) (passport : Passport.t) (did : string) (todo : list json)
    (w : World) (other : Z) :
  other <> Passport.pk passport ->
  stamps_of other (snd (validate_stamps ext passport did todo w)) = stamps_of other w
  /\ (length (stamps w) <= length (stamps (snd (validate_stamps ext passport did todo w))))%nat.
Proof.
  intros Hother. revert w. induction todo as [|stamp rest IH]; intros w; simpl; [done|].
  assert (Hstep : stamps_of other (snd (validate_stamp ext passport did stamp w))
                  = stamps_of other w
                  /\ (length (stamps w)
                      <= length (stamps (snd (validate_stamp ext passport did stamp w))))%nat).
  { destruct (validate_stamp_writes ext passport did stamp w)
      as [Hsame|(hash & provider & credential & wa & Hsame & ->)].
    - unfold stamps_of. by rewrite Hsame.
    - destruct (Stamp_objects_update_or_create_other hash (Passport.pk passport) other
                  provider credential wa Hother) as [Hrows Hlen].
      unfold stamps_of in *. by rewrite Hrows, Hsame in *. }
  unfold mbind, M_bind.
  destruct (validate_stamp ext passport did stamp w) as [[[]|e] w1]; simpl in *; [|done].
  destruct (IH w1) as [Hrows Hlen]. destruct Hstep as [Hrows1 Hlen1].
  split; [by rewrite Hrows | lia].
Qed.

Lemma loop_keeps_other_stamps_witness :
  stamps_of 2 (snd (validate_stamps (sample_collaborators JNull [] [])
                      (Passport.mk 1 "0xab" 7 (Some false)) "did:pkh:eip155:1:0xab"
                      same_hash_stamps needs_world))
  = stamps_of 2 needs_world
  /\ (length (stamps needs_world)
      <= length (stamps (snd (validate_stamps (sample_collaborators JNull [] [])
                                (Passport.mk 1 "0xab" 7 (Some false)) "did:pkh:eip155:1:0xab"
                                same_hash_stamps needs_world))))%nat.
Proof.
  apply (loop_keeps_other_stamps (sample_collaborators JNull [] [])
           (Passport.mk 1 "0xab" 7 (Some false)) "did:pkh:eip155:1:0xab"
           same_hash_stamps needs_world 2).
  discriminate.
Defined.

(** X15. Once deduplication has returned and the identifier is resolved,
    an empty list of stamps is no error: [validate_and_save_stamps]
    returns without reading the clock and the Stamp table is as the
    deduplication left it.  Passport data whose "stamps" cannot be read (a
    dict without the key raises the KeyError of the subscript) is an
    error, raised before any credential is looked at. *)
Theorem empty_stamp_list_is_no_error
    (ext : Collaborators) (passport : Passport.t) (passport_data deduped : json)
    (did : string) (w wd : World) :
  process_deduplication ext passport passport_data
    (add_log Log.debug "processing deduplication" (add_log Log.debug "getting stamp data " w))
  = (Ok deduped, wd) ->
  get_did ext (Passport.address passport) = Ok did ->
  (py_getitem deduped "stamps" = Ok (JList []) ->
   validate_and_save_stamps ext passport passport_data w
   = (Ok tt, add_log Log.debug "validating stamps" wd))
  /\ (forall e,
        py_getitem deduped "stamps" = Raise e ->
        validate_and_save_stamps ext passport passport_data w
        = (Raise e, add_log Log.debug "validating stamps" wd))
  /\ (forall fields,
        deduped = JDict fields -> dict_get "stamps" fields = None ->
        py_getitem deduped "stamps" = Raise (PyException KeyError "'stamps'")).
Proof.
  intros Hdedup Hdid.
  assert (Hrun : validate_and_save_stamps ext passport passport_data w
                 = match py_getitem deduped "stamps" ≫= py_iter with
                   | Ok todo =>
                       validate_stamps ext passport did todo
                         (add_log Log.debug "validating stamps" wd)
                   | Raise e => (Raise e, add_log Log.debug "validating stamps" wd)
                   end).
  { unfold validate_and_save_stamps, mbind at 1 2 3 4 5 6 7, M_bind at 1 2 3 4 5 6 7.
    unfold log_debug at 1 2, modify at 1 2. rewrite Hdedup.
    unfold log_debug, modify, lift. rewrite Hdid.
    unfold mbind, Outcome_bind.
    destruct (py_getitem deduped "stamps") as [field|e]; [|done].
    by destruct (py_iter field). }
  rewrite Hrun. split; [|split].
  - by intros ->.
  - by intros e ->.
  - intros fields -> Hnone. simpl. by rewrite Hnone.
Qed.

Lemma empty_stamp_list_is_no_error_witness :
  validate_and_save_stamps (sample_collaborators JNull [] [])
    (Passport.mk 1 "0xab" 7 (Some false)) (JDict [("stamps", JList [])]) needs_world
  = (Ok tt,
     add_log Log.debug "validating stamps"
       (found_logged (method_logged
          (add_log Log.debug "processing deduplication"
             (add_log Log.debug "getting stamp data " needs_world)))))
  /\ validate_and_save_stamps (sample_collaborators JNull [] [])
       (Passport.mk 1 "0xab" 7 (Some false)) (JDict [("issuanceDate", JNull)]) needs_world
     = (Raise (PyException KeyError "'stamps'"),
        add_log Log.debug "validating stamps"
          (found_logged (method_logged
             (add_log Log.debug "processing deduplication"
                (add_log Log.debug "getting stamp data " needs_world))))).
Proof.
  split.
  - apply (proj1 (empty_stamp_list_is_no_error (sample_collaborators JNull [] [])
                    (Passport.mk 1 "0xab" 7 (Some false)) (JDict [("stamps", JList [])])
                    (JDict [("stamps", JList [])]) "did:pkh:eip155:1:0xab" needs_world
                    (found_logged (method_logged
                       (add_log Log.debug "processing deduplication"
                          (add_log Log.debug "getting stamp data " needs_world))))
                    eq_refl eq_refl)).
    reflexivity.
  - apply (proj1 (proj2 (empty_stamp_list_is_no_error (sample_collaborators JNull [] [])
                    (Passport.mk 1 "0xab" 7 (Some false)) (JDict [("issuanceDate", JNull)])
                    (JDict [("issuanceDate", JNull)]) "did:pkh:eip155:1:0xab" needs_world
                    (found_logged (method_logged
                       (add_log Log.debug "processing deduplication"
                          (add_log Log.debug "getting stamp data " needs_world))))
                    eq_refl eq_refl))).
    reflexivity.
Defined.

Lemma Stamp_objects_update_or_create_grows
    (hash : json) (passport_id : Z) (provider credential : json) (w : World) :
  (length (stamps (snd (Stamp_objects_update_or_create hash passport_id provider credential w)))
   <= S (length (stamps w)))%nat.
Proof.
  unfold Stamp_objects_update_or_create.
  destruct (List.filter _ _) as [|old [|more l]]; simpl.
  - rewrite length_app. simpl. lia.
  - rewrite length_map. lia.
  - lia.
Qed.

(** X16. The loop never saves more stamps than it was given credentials:
    the Stamp table grows by at most one row per credential. *)
Theorem loop_saves_at_most_one_stamp_each
    (ext : Collaborators) (passport : Passport.t) (did : string) (todo : list json) (w : World) :
  (length (stamps (snd (validate_stamps ext passport did todo w)))
   <= length (stamps w) + length todo)%nat.
Proof.
  revert w. induction todo as [|stamp rest IH]; intros w; simpl; [lia|].
  assert (Hstep : (length (stamps (snd (validate_stamp ext passport did stamp w)))
                   <= S (length (stamps w)))%nat).
  { destruct (validate_stamp_writes ext passport did stamp w)
      as [->|(hash & provider & credential & wa & Hsame & ->)]; [lia|].
    rewrite <- Hsame. apply Stamp_objects_update_or_create_grows. }
  unfold mbind, M_bind.
  destruct (validate_stamp ext passport did stamp w) as [[[]|e] w1]; simpl in *; [|lia].
  specialize (IH w1). lia.
Qed.

(** ** Rescoring, row by row *)

(** X17. The rescoring loop of FIFO touches the Score rows of the affected
    passports only: the Score of any passport that is not in the affected
    list (the one being scored, if it is not in it) is as it was, and so
    are all stamps and passports, whether the loop returns or raises. *)
Theorem rescoring_touches_affected_only
    (ext : Collaborators) (affected_passports : list Passport.t) (w : World) (k : Z) :
  Forall (fun q => Passport.pk q <> k) affected_passports ->
  scores (snd (rescore_affected ext affected_passports w)) !! k = scores w !! k
  /\ stamps (snd (rescore_affected ext affected_passports w)) = stamps w
  /\ passports (snd (rescore_affected ext affected_passports w)) = passports w.
Proof.
  intros Hk.
  destruct (rescore_affected_effect ext affected_passports w) as (Hps & Hst & Hother & _).
  split; [by apply Hother | done].
Qed.

Lemma rescoring_touches_affected_only_witness :
  scores (snd (rescore_affected (sample_collaborators JNull [] [])
                 [Passport.mk 2 "0xcd" 7 (Some false)] needs_world)) !! 1%Z
  = scores needs_world !! 1%Z
  /\ stamps (snd (rescore_affected (sample_collaborators JNull [] [])
                    [Passport.mk 2 "0xcd" 7 (Some false)] needs_world))
     = stamps needs_world
  /\ passports (snd (rescore_affected (sample_collaborators JNull [] [])
                       [Passport.mk 2 "0xcd" 7 (Some false)] needs_world))
     = passports needs_world.
Proof.
  apply (rescoring_touches_affected_only (sample_collaborators JNull [] [])
           [Passport.mk 2 "0xcd" 7 (Some false)] needs_world 1).
  repeat constructor. discriminate.
Defined.

(** X18. When [calculate_score] fails for the first affected passport,
    the rescoring stops with its exception: that passport is left with a
    PROCESSING row without a score, and no other Score row has changed, so
    the affected passports after it are neither marked nor rescored. *)
Theorem rescoring_stops_at_first_failure
    (ext : Collaborators) (q : Passport.t) (rest : list Passport.t) (w : World) (e : exn) :
  fst (calculate_score ext q (Passport.community_id q)
         (snd (Score_objects_update_or_create (Passport.pk q) processing_defaults
                 (add_log Log.debug "FIFO scoring selected, rescoring passport='%s'" w))))
  = Raise e ->
  fst (rescore_affected ext (q :: rest) w) = Raise e
  /\ scores (snd (rescore_affected ext (q :: rest) w)) !! Passport.pk q
     = Some (processing_defaults (default Score_blank (scores w !! Passport.pk q)))
  /\ forall k, k <> Passport.pk q ->
       scores (snd (rescore_affected ext (q :: rest) w)) !! k = scores w !! k.
Proof.
  simpl. unfold mbind, M_bind. simpl.
  set (w0 := set_scores _ (add_log _ _ w)). intros Hfail.
  destruct (calculate_score_effect ext q (Passport.community_id q) w0) as (_ & _ & Hsc).
  destruct (calculate_score ext q (Passport.community_id q) w0) as [[[]|e'] w1];
    simpl in *; [done|].
  injection Hfail as ->. split; [done|].
  rewrite Hsc. subst w0. simpl. split; [apply lookup_insert_eq|].
  intros k Hk. by rewrite lookup_insert_ne.
Qed.

Lemma rescoring_stops_at_first_failure_witness :
  fst (rescore_affected (sample_collaborators JNull [] [2%Z])
         [Passport.mk 2 "0xcd" 7 (Some false); Passport.mk 1 "0xab" 7 (Some false)]
         needs_world)
  = Raise (PyException OtherException "scorer unavailable")
  /\ scores (snd (rescore_affected (sample_collaborators JNull [] [2%Z])
                    [Passport.mk 2 "0xcd" 7 (Some false); Passport.mk 1 "0xab" 7 (Some false)]
                    needs_world)) !! 2%Z
     = Some (Score.mk None Score.PROCESSING None None None)
  /\ scores (snd (rescore_affected (sample_collaborators JNull [] [2%Z])
                    [Passport.mk 2 "0xcd" 7 (Some false); Passport.mk 1 "0xab" 7 (Some false)]
                    needs_world)) !! 1%Z
     = Some (Score.mk (Some 12%Z) Score.DONE (Some 500%Z) None None).
Proof.
  destruct (rescoring_stops_at_first_failure (sample_collaborators JNull [] [2%Z])
              (Passport.mk 2 "0xcd" 7 (Some false)) [Passport.mk 1 "0xab" 7 (Some false)]
              needs_world (PyException OtherException "scorer unavailable") eq_refl)
    as (Hraise & Hrow & Hothers).
  split; [exact Hraise|]. split; [exact Hrow|].
  rewrite (Hothers 1%Z); [reflexivity | discriminate].
Defined.

(** ** A run without the passport *)

(** X19. A run whose claim returns [None], for whatever reason, does no
    work: it returns after one more log line, no stamp and no Score row
    has changed, the clock was not read, and the collaborators play no
    part in what it leaves behind. *)
Theorem unclaimed_run_does_nothing
    (ext ext' : Collaborators) (community_id : Z) (address : string) (w : World) :
  fst (load_passport_record community_id address (request_logged w)) = Ok None ->
  score_passport ext community_id address w = score_passport ext' community_id address w
  /\ stamps (snd (score_passport ext community_id address w)) = stamps w
  /\ scores (snd (score_passport ext community_id address w)) = scores w
  /\ clock_reads (snd (score_passport ext community_id address w)) = clock_reads w
  /\ length (log (snd (score_passport ext community_id address w))) = S (S (length (log w))).
Proof.
  intros Hnone. rewrite !score_passport_unfold.
  pose proof (load_passport_record_frame community_id address (request_logged w)) as Hframe.
  destruct (load_passport_record community_id address (request_logged w))
    as [[[passport|]|e] w1]; try done.
  simpl in *. destruct Hframe as (Hst & Hsc & _ & Hclock & Hlog).
  repeat split; try done. rewrite length_app, Hlog, length_app. simpl. lia.
Qed.

Lemma unclaimed_run_does_nothing_witness :
  score_passport (sample_collaborators one_stamp_data [] []) 7 "0xAB" done_world
  = score_passport (late_collaborators JNull) 7 "0xAB" done_world
  /\ stamps (snd (score_passport (sample_collaborators one_stamp_data [] []) 7 "0xAB"
                    done_world)) = stamps done_world
  /\ scores (snd (score_passport (sample_collaborators one_stamp_data [] []) 7 "0xAB"
                    done_world)) = scores done_world
  /\ clock_reads (snd (score_passport (sample_collaborators one_stamp_data [] []) 7 "0xAB"
                         done_world)) = clock_reads done_world
  /\ length (log (snd (score_passport (sample_collaborators one_stamp_data [] []) 7 "0xAB"
                         done_world))) = S (S (length (log done_world))).
Proof.
  apply (unclaimed_run_does_nothing (sample_collaborators one_stamp_data [] [])
           (late_collaborators JNull) 7 "0xAB" done_world).
  reflexivity.
Defined.
